(** * Synmax Data Agent: a shallow embedding of the planner, the filter
    engine, the analytical operations and the plan executor
    (src/src/planner.py, src/src/analysis.py, src/src/agent.py).

    Python strings are modelled as ASCII strings (Stdlib [string]); the
    regular expressions of the planner are run by a small backtracking
    matcher that follows the search order of Python's [re] module for the
    fragment they use (literals, greedy bounded repetition of a character
    class, alternation of words, groups, [\b] and [$]).  Python dicts are
    association lists with Python's insertion order; a pandas DataFrame is
    a list of labelled rows over a list of typed columns. *)

From Stdlib Require Import String Ascii List Bool ZArith QArith Lia.
From Stdlib Require Import Reals Lra.
From stdpp Require Import gmap strings.
Import ListNotations.
Open Scope string_scope.
Open Scope list_scope.

(* ------------------------------------------------------------------ *)
(** ** Python string primitives (ASCII) *)

Module PyStr.

Definition code (c : ascii) : nat := nat_of_ascii c.

Definition is_digit (c : ascii) : bool := (Nat.leb 48 (code c)) && (Nat.leb (code c) 57).
Definition is_lower (c : ascii) : bool := (Nat.leb 97 (code c)) && (Nat.leb (code c) 122).
Definition is_upper (c : ascii) : bool := (Nat.leb 65 (code c)) && (Nat.leb (code c) 90).

(** [str.isspace] and [re]'s [\s] on ASCII: \t \n \x0b \x0c \r,
    \x1c-\x1f and the space. *)
Definition is_space (c : ascii) : bool :=
  ((Nat.leb 9 (code c)) && (Nat.leb (code c) 13)) || ((Nat.leb 28 (code c)) && (Nat.leb (code c) 32)).

(** [re]'s [\w] on ASCII. *)
Definition is_word (c : ascii) : bool :=
  is_digit c || is_lower c || is_upper c || (Nat.eqb (code c) 95).

Definition lower_c (c : ascii) : ascii :=
  if is_upper c then ascii_of_nat (code c + 32) else c.
Definition upper_c (c : ascii) : ascii :=
  if is_lower c then ascii_of_nat (code c - 32) else c.

Definition lower (s : string) : string :=
  string_of_list_ascii (map lower_c (list_ascii_of_string s)).
Definition upper (s : string) : string :=
  string_of_list_ascii (map upper_c (list_ascii_of_string s)).

Fixpoint drop_space (l : list ascii) : list ascii :=
  match l with
  | c :: r => if is_space c then drop_space r else l
  | [] => []
  end.

(** [str.strip()] *)
Definition strip (s : string) : string :=
  string_of_list_ascii
    (rev (drop_space (rev (drop_space (list_ascii_of_string s))))).

Fixpoint prefixb (p s : list ascii) : bool :=
  match p, s with
  | [], _ => true
  | a :: p', b :: s' => Ascii.eqb a b && prefixb p' s'
  | _ :: _, [] => false
  end.

Fixpoint infixb (p s : list ascii) : bool :=
  prefixb p s || match s with [] => false | _ :: s' => infixb p s' end.

(** [p in s] *)
Definition py_in (p s : string) : bool :=
  infixb (list_ascii_of_string p) (list_ascii_of_string s).

Definition startswith (s p : string) : bool :=
  prefixb (list_ascii_of_string p) (list_ascii_of_string s).
Definition endswith (s p : string) : bool :=
  prefixb (rev (list_ascii_of_string p)) (rev (list_ascii_of_string s)).

Definition len (s : string) : nat := String.length s.

(** [str(z)] for a Python int *)
Definition digit_char (n : nat) : ascii := ascii_of_nat (48 + n).

Fixpoint digits_of_pos (fuel : nat) (p : positive) (acc : list ascii) : list ascii :=
  match fuel with
  | O => acc
  | S f =>
      let (q, r) := N.div_eucl (Npos p) 10 in
      let acc' := digit_char (N.to_nat r) :: acc in
      match q with N0 => acc' | Npos q' => digits_of_pos f q' acc' end
  end.

Definition z_str (z : Z) : string :=
  match z with
  | Z0 => "0"
  | Zpos p => string_of_list_ascii (digits_of_pos (Pos.size_nat p) p [])
  | Zneg p => String "-" (string_of_list_ascii (digits_of_pos (Pos.size_nat p) p []))
  end.

End PyStr.

(* ------------------------------------------------------------------ *)
(** ** A backtracking matcher for the planner's regular expressions *)

Module Re.
Import PyStr.

Inductive item : Type :=
| Chr (c : ascii)                                  (* a literal character *)
| Rep (p : ascii -> bool) (lo : nat) (hi : option nat) (* greedy p{lo,hi} *)
| Alt (ws : list (list ascii))                     (* (?:w1|w2|...) *)
| Open (g : nat)                                   (* start of group g *)
| Close (g : nat)                                  (* end of group g *)
| WordB                                            (* \b *)
| EndA.                                            (* $ *)

Definition caps := list (nat * (nat * nat)).

(** the longest run of characters satisfying [p] at the start of [l],
    bounded by [hi] *)
Fixpoint run (p : ascii -> bool) (l : list ascii) (hi : option nat) : nat :=
  match hi, l with
  | Some O, _ => O
  | _, c :: r => if p c then S (run p r (option_map pred hi)) else O
  | _, [] => O
  end.

(** the repetition counts tried, greedy first: n, n-1, ..., lo *)
Definition counts (n lo : nat) : list nat :=
  if Nat.ltb n lo then [] else rev (seq lo (S (n - lo))).

Fixpoint first_some {A B} (f : A -> option B) (l : list A) : option B :=
  match l with
  | [] => None
  | a :: r => match f a with Some b => Some b | None => first_some f r end
  end.

Definition word_at (s : list ascii) (i : nat) : bool :=
  match nth_error s i with Some c => is_word c | None => false end.

Definition boundary (s : list ascii) (i : nat) : bool :=
  let before := match i with O => false | S j => word_at s j end in
  xorb before (word_at s i).

(** Python's [$] without MULTILINE: end of the string, or just before a
    newline that ends it. *)
Definition at_end (s : list ascii) (i : nat) : bool :=
  (Nat.eqb i (length s)) ||
  ((Nat.eqb (S i) (length s)) && match nth_error s i with
                         | Some c => Ascii.eqb c "010"%char
                         | None => false end).

Fixpoint mtch (its : list item) (s : list ascii) (i : nat)
  (opn : list (nat * nat)) (cp : caps) : option (nat * caps) :=
  match its with
  | [] => Some (i, cp)
  | Chr c :: r =>
      match nth_error s i with
      | Some d => if Ascii.eqb c d then mtch r s (S i) opn cp else None
      | None => None
      end
  | Rep p lo hi :: r =>
      first_some (fun k => mtch r s (i + k) opn cp) (counts (run p (skipn i s) hi) lo)
  | Alt ws :: r =>
      first_some (fun w => if prefixb w (skipn i s)
                           then mtch r s (i + length w) opn cp else None) ws
  | Open g :: r => mtch r s i ((g, i) :: opn) cp
  | Close g :: r =>
      match find (fun '(h, _) => Nat.eqb g h) opn with
      | Some (_, b) => mtch r s i opn ((g, (b, i)) :: cp)
      | None => None
      end
  | WordB :: r => if boundary s i then mtch r s i opn cp else None
  | EndA :: r => if at_end s i then mtch r s i opn cp else None
  end.

(** [re.search]: the leftmost start position at which the pattern matches;
    the result is the list of captured groups. *)
Definition search (its : list item) (str : string) : option caps :=
  let s := list_ascii_of_string str in
  first_some (fun i => option_map snd (mtch its s i [] []))
             (seq 0 (S (length s))).

(** [m.group(g)] *)
Definition group (str : string) (cp : caps) (g : nat) : string :=
  match find (fun '(h, _) => Nat.eqb g h) cp with
  | Some (_, (b, e)) => substring b (e - b) str
  | None => ""
  end.

Definition lit (w : string) : list item := map Chr (list_ascii_of_string w).
Definition cls (p : ascii -> bool) : item := Rep p 1 None.          (* p+ *)
Definition cls_star (p : ascii -> bool) : item := Rep p 0 None.     (* p* *)

(** [[a-z0-9_ ]] *)
Definition name_chr (c : ascii) : bool :=
  is_lower c || is_digit c || (Nat.eqb (code c) 95) || (Nat.eqb (code c) 32).
(** [[a-z0-9_/\-]] *)
Definition val_chr (c : ascii) : bool :=
  is_lower c || is_digit c || (Nat.eqb (code c) 95) || (Nat.eqb (code c) 47) || (Nat.eqb (code c) 45).

(** [\b(\d{1,4})\b] *)
Definition p_int : list item :=
  [WordB; Open 1; Rep is_digit 1 (Some 4); Close 1; WordB].
(** [\b(20\d{2})\b] *)
Definition p_year : list item :=
  [WordB; Open 1; Chr "2"; Chr "0"; Rep is_digit 2 (Some 2); Close 1; WordB].
(** [where\s+([a-z0-9_ ]+)\s*=\s*([a-z0-9_/\-]+)] *)
Definition p_where_eq : list item :=
  lit "where" ++ [cls is_space; Open 1; cls name_chr; Close 1; cls_star is_space;
                  Chr "="; cls_star is_space; Open 2; cls val_chr; Close 2].
(** [where\s+([a-z0-9_ ]+)\s+contains\s+([a-z0-9_/\-]+)] *)
Definition p_where_contains : list item :=
  lit "where" ++ [cls is_space; Open 1; cls name_chr; Close 1; cls is_space]
  ++ lit "contains" ++ [cls is_space; Open 2; cls val_chr; Close 2].
(** [(?:top|largest)\s+(\d+)\s+rows?\s+by\s+([a-z0-9_ ]+)] *)
Definition p_top : list item :=
  [Alt [list_ascii_of_string "top"; list_ascii_of_string "largest"];
   cls is_space; Open 1; cls is_digit; Close 1; cls is_space]
  ++ lit "row" ++ [Rep (fun c => Ascii.eqb c "s") 0 (Some 1); cls is_space]
  ++ lit "by" ++ [cls is_space; Open 2; cls name_chr; Close 2].
(** [(?: by | per )([a-z0-9_ ]+)$] *)
Definition p_by_per_end : list item :=
  [Alt [list_ascii_of_string " by "; list_ascii_of_string " per "];
   Open 1; cls name_chr; Close 1; EndA].
(** [by ([a-z0-9_ ]+)] *)
Definition p_by : list item := lit "by " ++ [Open 1; cls name_chr; Close 1].

End Re.

(* ------------------------------------------------------------------ *)
(** ** Python values *)

(** A Python float literal as parsed by [float()]: the decimal value
    [(-1)^neg * m * 10^e] (rounding to binary64 is not modelled), an
    infinity or a NaN. *)
Inductive fval : Type :=
| FDec (neg : bool) (m : Z) (e : Z)
| FInf (neg : bool)
| FNaN.

(** The Python values the planner builds and the executor reads:
    dict keys are always strings in this program. *)
#[warnings="-register-all"]
Inductive pyval : Type :=
| PNone
| PBool (b : bool)
| PInt (z : Z)
| PFloat (f : fval)
| PStr (s : string)
| PList (l : list pyval)
| PDict (d : list (string * pyval)).

Definition dict := list (string * pyval).

Module Dict.
(** [d.get(k)] *)
Fixpoint get (k : string) (d : dict) : option pyval :=
  match d with
  | [] => None
  | (k', v) :: r => if String.eqb k k' then Some v else get k r
  end.
(** [d[k] = v]: an existing key keeps its position, a new key goes last *)
Fixpoint set (k : string) (v : pyval) (d : dict) : dict :=
  match d with
  | [] => [(k, v)]
  | (k', v') :: r => if String.eqb k k' then (k, v) :: r else (k', v') :: set k v r
  end.
Definition mem (k : string) (d : dict) : bool :=
  match get k d with Some _ => true | None => false end.
End Dict.

(** Python truthiness *)
Definition py_truthy (v : pyval) : bool :=
  match v with
  | PNone => false
  | PBool b => b
  | PInt z => negb (Z.eqb z 0)
  | PFloat (FDec _ m _) => negb (Z.eqb m 0)
  | PFloat _ => true
  | PStr s => negb (String.eqb s "")
  | PList l => negb (Nat.eqb (length l) 0)
  | PDict d => negb (Nat.eqb (length d) 0)
  end.

(** [x or default] *)
Definition py_or (v d : pyval) : pyval := if py_truthy v then v else d.

(* ------------------------------------------------------------------ *)
(** ** [int()] and [float()] on a string *)

Module PyNum.
Import PyStr.

(** a maximal [digit (['_'] digit)*] prefix: its value, its number of
    digits and the rest of the input *)
Fixpoint digitpart (l : list ascii) (acc : Z) (nd : nat) : Z * nat * list ascii :=
  match l with
  | c :: r =>
      if is_digit c then digitpart r (acc * 10 + Z.of_nat (code c - 48))%Z (S nd)
      else if Ascii.eqb c "_" && Nat.ltb 0 nd then
        match r with
        | d :: _ => if is_digit d then digitpart r acc nd else (acc, nd, l)
        | [] => (acc, nd, l)
        end
      else (acc, nd, l)
  | [] => (acc, nd, [])
  end.

Definition sign (l : list ascii) : bool * list ascii :=
  match l with
  | c :: r => if Ascii.eqb c "-" then (true, r)
              else if Ascii.eqb c "+" then (false, r) else (false, l)
  | [] => (false, [])
  end.

(** [int(s)] for a decimal string; [None] when it raises ValueError *)
Definition py_int (s : string) : option Z :=
  let '(neg, body) := sign (list_ascii_of_string (strip s)) in
  let '(v, nd, rest) := digitpart body 0 0 in
  match nd, rest with
  | S _, [] => Some (if neg then (- v)%Z else v)
  | _, _ => None
  end.

(** [float(s)]; [None] when it raises ValueError *)
Definition py_float (s : string) : option fval :=
  let '(neg, body) := sign (list_ascii_of_string (lower (strip s))) in
  let w := string_of_list_ascii body in
  if String.eqb w "inf" || String.eqb w "infinity" then Some (FInf neg)
  else if String.eqb w "nan" then Some FNaN
  else
    let '(ip, ni, r1) := digitpart body 0 0 in
    let '(fp, nf, r2) :=
      match r1 with
      | c :: r => if Ascii.eqb c "." then digitpart r 0 0 else (0%Z, O, r1)
      | [] => (0%Z, O, [])
      end in
    let m := (ip * 10 ^ Z.of_nat nf + fp)%Z in
    if Nat.eqb (ni + nf) 0 then None else
    match r2 with
    | [] => Some (FDec neg m (- Z.of_nat nf)%Z)
    | c :: r3 =>
        if Ascii.eqb c "e" then
          let '(eneg, r4) := sign r3 in
          let '(ev, ne, r5) := digitpart r4 0 0 in
          match ne, r5 with
          | S _, [] => Some (FDec neg m ((if eneg then - ev else ev) - Z.of_nat nf)%Z)
          | _, _ => None
          end
        else None
    end.

End PyNum.

(** [_coerce_literal] (planner.py): int, else float, else the string,
    upper-cased when it has at most 5 characters. *)
Definition coerce_literal (s : string) : pyval :=
  match PyNum.py_int s with
  | Some z => PInt z
  | None =>
      match PyNum.py_float s with
      | Some f => PFloat f
      | None => PStr (if Nat.leb (PyStr.len s) 5 then PyStr.upper s else s)
      end
  end.

(* ------------------------------------------------------------------ *)
(** ** The intent planner (planner.py) *)

Module Planner.
Import PyStr.

Section Planner.

(** [difflib.get_close_matches(word, possibilities, n, cutoff)]: its
    similarity ranking is left as a parameter; every statement below holds
    for any ranking. *)
Variable get_close_matches : string -> list string -> nat -> Q -> list string.

Definition hd_opt (l : list string) : option string :=
  match l with x :: _ => Some x | [] => None end.

(** truthiness of an [Optional[str]] *)
Definition truthy (o : option string) : bool :=
  match o with Some s => negb (String.eqb s "") | None => false end.

(** [a or b] on [Optional[str]] *)
Definition or_str (a b : option string) : option string :=
  if truthy a then a else b.

Definition str_mem (c : string) (cols : list string) : bool :=
  existsb (String.eqb c) cols.

Definition any_in (ps : list string) (q : string) : bool :=
  existsb (fun p => py_in p q) ps.

(** [_first_present] *)
Definition first_present (cols cands : list string) : option string :=
  match find (fun c => str_mem c cols) cands with
  | Some c => Some c
  | None =>
      match cands with
      | c0 :: _ => hd_opt (get_close_matches c0 cols 1 (7 # 10))
      | [] => None
      end
  end.

(** [_extract_year] *)
Definition extract_year (text : string) : option Z :=
  match Re.search Re.p_year text with
  | Some cp => PyNum.py_int (Re.group text cp 1)
  | None => None
  end.

(** [_extract_int] *)
Definition extract_int (text : string) : option Z :=
  match Re.search Re.p_int text with
  | Some cp => PyNum.py_int (Re.group text cp 1)
  | None => None
  end.

(** [_resolve_col_from_text] *)
Definition resolve_col_from_text (qpiece : string) (cols : list string) : option string :=
  let text := lower qpiece in
  match find (fun c => py_in (lower c) text) cols with
  | Some c => Some c
  | None => hd_opt (get_close_matches (strip text) cols 1 (8 # 10))
  end.

(** [_resolve_col_after_by_or_per] *)
Definition resolve_col_after_by_or_per (q : string) (cols : list string) : option string :=
  let m := match Re.search Re.p_by_per_end q with
           | Some cp => Some cp
           | None => Re.search Re.p_by q
           end in
  match m with
  | None => None
  | Some cp => resolve_col_from_text (Re.group q cp 1) cols
  end.

(** [_extract_filters] *)
Definition extract_filters (q : string) (cols : list string) : dict :=
  let f1 :=
    match Re.search Re.p_where_eq q with
    | Some cp =>
        let col := resolve_col_from_text (Re.group q cp 1) cols in
        let val := strip (Re.group q cp 2) in
        match col with
        | Some c => if truthy col then Dict.set c (coerce_literal val) [] else []
        | None => []
        end
    | None => []
    end in
  match Re.search Re.p_where_contains q with
  | Some cp =>
      let col := resolve_col_from_text (Re.group q cp 1) cols in
      let val := strip (Re.group q cp 2) in
      match col with
      | Some c => if truthy col then Dict.set c (PDict [("contains", PStr val)]) f1 else f1
      | None => f1
      end
  | None => f1
  end.

Definition str_list (l : list string) : pyval := PList (map PStr l).

Definition plan_aggregate (gb : list string) (ops : dict) (f : dict) : pyval :=
  PDict [("type", PStr "aggregate"); ("group_by", str_list gb);
         ("ops", PDict ops); ("filters", PDict f)].

(** [n or d] for the extracted integer *)
Definition n_or (n : option Z) (d : Z) : Z :=
  match n with Some z => if Z.eqb z 0 then d else z | None => d end.

Definition only_type (t : string) : pyval := PDict [("type", PStr t)].

(** The rules of [plan_from_nl], in the order the source tests them;
    [None] means the rule does not return and the next one is tried. *)
Definition rule_shape (q : string) : option pyval :=
  if any_in ["how many columns"; "number of columns"; "columns count"; "col count";
             "dataset shape"; "shape"; "dimensions"] q
  then Some (only_type "meta:shape") else None.
Definition rule_columns (q : string) : option pyval :=
  if any_in ["list columns"; "what are the columns"; "show columns"; "column names";
             "headers"; "features"; "schema"] q
  then Some (only_type "meta:columns") else None.
Definition rule_dtypes (q : string) : option pyval :=
  if any_in ["dtypes"; "data types"; "types of columns"; "show dtypes"] q
  then Some (only_type "meta:dtypes") else None.
Definition rule_describe (q : string) : option pyval :=
  if any_in ["describe"; "summary stats"; "summary statistics"; "stats"] q
  then Some (only_type "meta:describe") else None.
Definition rule_head (q : string) (n : option Z) : option pyval :=
  if py_in "head" q || py_in "first rows" q || py_in "show first" q
  then Some (PDict [("type", PStr "meta:head"); ("n", PInt (n_or n 5))]) else None.
Definition rule_tail (q : string) (n : option Z) : option pyval :=
  if py_in "tail" q || py_in "last rows" q || py_in "show last" q
  then Some (PDict [("type", PStr "meta:tail"); ("n", PInt (n_or n 5))]) else None.
Definition rule_missing (q : string) : option pyval :=
  if any_in ["missing values"; "nulls"; "nans"; "na values"; "na summary"] q
  then Some (only_type "meta:missing") else None.
Definition rule_duplicates (q : string) : option pyval :=
  if any_in ["duplicate rows"; "duplicates"] q
  then Some (only_type "meta:duplicates") else None.

Definition rule_unique (q : string) (cols : list string) : option pyval :=
  if py_in "unique" q || py_in "distinct" q then
    match resolve_col_from_text q cols with
    | Some c => if truthy (Some c)
                then Some (PDict [("type", PStr "unique_count"); ("col", PStr c)])
                else None
    | None => None
    end
  else None.

Definition rule_value_counts (q : string) (cols : list string) (n : option Z) : option pyval :=
  if any_in ["value counts"; "frequency"; "distribution"; "breakdown"] q then
    match resolve_col_from_text q cols with
    | Some c => if truthy (Some c)
                then Some (PDict [("type", PStr "value_counts"); ("col", PStr c);
                                  ("n", PInt (n_or n 10))])
                else None
    | None => None
    end
  else None.

(** [if year and 'year' in available_cols: f['year'] = year] *)
Definition fold_year (year : option Z) (cols : list string) (f : dict) : dict :=
  match year with
  | Some y => if negb (Z.eqb y 0) && str_mem "year" cols then Dict.set "year" (PInt y) f
              else f
  | None => f
  end.

(** rule 5 of the spec: row-count phrasing *)
Definition rule_count (q : string) (cols : list string) (year : option Z)
    (filters : dict) : option pyval :=
  if any_in ["how many rows"; "count rows"; "row count"; "number of rows"; "rows"] q then
    let grp := resolve_col_after_by_or_per q cols in
    match grp with
    | Some g => if truthy grp
                then Some (PDict [("type", PStr "group_count"); ("group_by", str_list [g])])
                else Some (plan_aggregate [] [("*", PStr "count")] (fold_year year cols filters))
    | None => Some (plan_aggregate [] [("*", PStr "count")] (fold_year year cols filters))
    end
  else None.

Definition year_truthy (year : option Z) : bool :=
  match year with Some y => negb (Z.eqb y 0) | None => false end.

(** [[gb] if gb else (['year'] if 'year' in cols and ('by year' in q or year) else [])] *)
Definition group_list (q : string) (cols : list string) (year : option Z)
    (gb : option string) : list string :=
  match gb with
  | Some g => if truthy gb then [g]
              else if str_mem "year" cols && (py_in "by year" q || year_truthy year)
                   then ["year"] else []
  | None => if str_mem "year" cols && (py_in "by year" q || year_truthy year)
            then ["year"] else []
  end.

(** [{target: op} if target else {}] *)
Definition ops_of (target : option string) (op : string) : dict :=
  match target with
  | Some t => if truthy target then [(t, PStr op)] else []
  | None => []
  end.

Definition rule_top (q : string) (cols : list string) (filters : dict) : option pyval :=
  match Re.search Re.p_top q with
  | Some cp =>
      let top_n := match PyNum.py_int (Re.group q cp 1) with Some z => z | None => 0%Z end in
      let by_col := resolve_col_from_text (Re.group q cp 2) cols in
      match by_col with
      | Some b => if truthy by_col
                  then Some (PDict [("type", PStr "sort_top"); ("by", str_list [b]);
                                    ("ascending", PBool false); ("top_n", PInt top_n);
                                    ("filters", PDict filters)])
                  else None
      | None => None
      end
  | None => None
  end.

Definition rule_sum (q : string) (cols : list string) (year : option Z)
    (filters : dict) : option pyval :=
  if any_in ["sum"; "total"] q then
    let target := first_present cols ["scheduled_quantity"; "shipments"; "volume";
                                      "amount"; "value"] in
    let gb := resolve_col_after_by_or_per q cols in
    Some (plan_aggregate (group_list q cols year gb) (ops_of target "sum")
                         (fold_year year cols filters))
  else None.

Definition rule_avg (q : string) (cols : list string) (year : option Z)
    (filters : dict) : option pyval :=
  if any_in ["average"; "mean"; "avg"] q then
    let target := or_str (resolve_col_from_text q cols)
                    (first_present cols ["scheduled_quantity"; "shipments"; "volume";
                                         "delay_hours"; "amount"; "value"]) in
    let gb := resolve_col_after_by_or_per q cols in
    Some (plan_aggregate (group_list q cols year gb) (ops_of target "mean")
                         (fold_year year cols filters))
  else None.

Definition rule_corr (q : string) (cols : list string) : option pyval :=
  if py_in "correlation" q || py_in "correlate" q || py_in "relationship" q
     || py_in "corr" q then
    Some (PDict [("type", PStr "correlation");
                 ("cols", str_list (List.filter (fun c => str_mem c cols)
                    ["scheduled_quantity"; "shipments"; "volume"; "delay_hours";
                     "rec_del_sign"]))])
  else None.

Definition rule_outlier (q : string) (cols : list string) : option pyval :=
  if py_in "outlier" q || py_in "anomaly" q || py_in "weird" q then
    let col := or_str (resolve_col_from_text q cols)
                 (first_present cols ["scheduled_quantity"; "delay_hours"; "volume";
                                      "shipments"]) in
    let colv := match col with
                | Some c => if truthy col then PStr c
                            else match cols with c0 :: _ => PStr c0 | [] => PNone end
                | None => match cols with c0 :: _ => PStr c0 | [] => PNone end
                end in
    Some (PDict [("type", PStr "anomaly:zscore"); ("col", colv);
                 ("threshold", PFloat (FDec false 3 0))])
  else None.

Definition rule_trend (q : string) (cols : list string) : option pyval :=
  if py_in "trend" q || py_in "over time" q || py_in "by year" q then
    let target := or_str (resolve_col_from_text q cols)
                    (first_present cols ["scheduled_quantity"; "shipments"; "volume";
                                         "delay_hours"]) in
    Some (plan_aggregate (if str_mem "year" cols then ["year"] else [])
                         (ops_of target "mean") [])
  else None.

Definition default_plan : pyval := plan_aggregate [] [("*", PStr "count")] [].

(** [plan_from_nl]: the first rule that returns wins. *)
Definition plan_from_nl (question : string) (cols : list string) : pyval :=
  let q := lower (strip question) in
  let n := extract_int q in
  let year := extract_year q in
  let filters := extract_filters q cols in
  match Re.first_some (fun r => r)
          [rule_shape q; rule_columns q; rule_dtypes q; rule_describe q;
           rule_head q n; rule_tail q n; rule_missing q; rule_duplicates q;
           rule_unique q cols; rule_value_counts q cols n;
           rule_count q cols year filters; rule_top q cols filters;
           rule_sum q cols year filters; rule_avg q cols year filters;
           rule_corr q cols; rule_outlier q cols; rule_trend q cols] with
  | Some p => p
  | None => default_plan
  end.

End Planner.

(** a ranking that never finds a close match, for concrete runs *)
Definition no_close_matches (w : string) (ps : list string) (n : nat) (c : Q) : list string := [].

End Planner.

(* ------------------------------------------------------------------ *)
(** ** DataFrames and the filter engine (analysis.py) *)

(** Column dtypes: int64, float64 and object (datetime and bool columns
    are not modelled). *)
Inductive dtype : Type := DInt | DFloat | DObject.

(** Cells: an int, a finite float, a float NaN, a Python str, [None]. *)
Inductive cell : Type :=
| CInt (z : Z)
| CFlt (q : Q)
| CNaN
| CStr (s : string)
| CNone.

(** A DataFrame: named, typed columns and rows carrying their index
    label (a loaded table has the unique labels 0..N-1). *)
Record table : Type := mkTable {
  tcols : list (string * dtype);
  trows : list (nat * list cell)
}.

Inductive exn : Type := TypeError | ValueError | KeyError | IndexError | AttributeError.

Inductive result (A : Type) : Type :=
| Ok (a : A)
| Err (e : exn).
Arguments Ok {A} a.
Arguments Err {A} e.

Definition bind {A B} (m : result A) (k : A -> result B) : result B :=
  match m with Ok a => k a | Err e => Err e end.
Notation "'letr' x := m 'in' k" := (bind m (fun x => k))
  (at level 200, x name, m at level 100, k at level 200).

Definition is_null (c : cell) : bool :=
  match c with CNaN | CNone => true | _ => false end.

(** extended numbers for comparisons *)
Inductive xnum : Type := XFin (q : Q) | XInf (neg : bool) | XNaN.

Definition fval_x (f : fval) : xnum :=
  match f with
  | FDec neg m e =>
      let v := if Z.leb 0 e then inject_Z (m * 10 ^ e)
               else Qmake m (Z.to_pos (10 ^ (- e))) in
      XFin (if neg then Qopp v else v)
  | FInf neg => XInf neg
  | FNaN => XNaN
  end.

Definition cell_x (c : cell) : option xnum :=
  match c with
  | CInt z => Some (XFin (inject_Z z))
  | CFlt q => Some (XFin q)
  | CNaN => Some XNaN
  | _ => None
  end.

Definition py_x (v : pyval) : option xnum :=
  match v with
  | PInt z => Some (XFin (inject_Z z))
  | PBool b => Some (XFin (if b then 1 else 0))
  | PFloat f => Some (fval_x f)
  | _ => None
  end.

Definition py_is_null (v : pyval) : bool :=
  match v with PNone | PFloat FNaN => true | _ => false end.

Inductive cmpop : Type := OGe | OLe | OGt | OLt.

(** [a op b] on two extended numbers (NaN compares false) *)
Definition cmp_x (o : cmpop) (a b : xnum) : bool :=
  let le a b := match a, b with
                | XNaN, _ | _, XNaN => false
                | XInf true, _ | _, XInf false => true
                | XInf false, _ | _, XInf true => false
                | XFin x, XFin y => Qle_bool x y
                end in
  let lt a b := match a, b with
                | XNaN, _ | _, XNaN => false
                | XFin x, XFin y => negb (Qle_bool y x)
                | _, _ => le a b && negb (le b a)
                end in
  match o with
  | OGe => le b a | OLe => le a b | OGt => lt b a | OLt => lt a b
  end.

Definition cmp_str (o : cmpop) (a b : string) : bool :=
  match o, String.compare a b with
  | OGe, Lt => false | OGe, _ => true
  | OLe, Gt => false | OLe, _ => true
  | OGt, Gt => true  | OGt, _ => false
  | OLt, Lt => true  | OLt, _ => false
  end.

Fixpoint all_ok {A} (l : list (result A)) : result (list A) :=
  match l with
  | [] => Ok []
  | Ok a :: r => letr rest := all_ok r in Ok (a :: rest)
  | Err e :: _ => Err e
  end.

(** [s op v] for a column [s] of dtype [dt] and a scalar [v] *)
Definition cmp_col (dt : dtype) (o : cmpop) (s : list (nat * cell)) (v : pyval)
  : result (list (nat * bool)) :=
  if py_is_null v then Ok (map (fun '(l, _) => (l, false)) s) else
  match dt with
  | DInt | DFloat =>
      match py_x v with
      | Some x => Ok (map (fun '(l, c) =>
                    (l, match cell_x c with Some y => cmp_x o y x | None => false end)) s)
      | None => Err TypeError
      end
  | DObject =>
      all_ok (map (fun '(l, c) =>
        if is_null c then Ok (l, false) else
        match c, v with
        | CStr a, PStr b => Ok (l, cmp_str o a b)
        | _, _ => match cell_x c, py_x v with
                  | Some y, Some x => Ok (l, cmp_x o y x)
                  | _, _ => Err TypeError
                  end
        end) s)
  end.

(** Python [==] between a cell and a value *)
Definition cell_eq (c : cell) (v : pyval) : bool :=
  match c, v with
  | CStr a, PStr b => String.eqb a b
  | _, _ => match cell_x c, py_x v with
            | Some (XFin a), Some (XFin b) => Qeq_bool a b
            | Some (XInf a), Some (XInf b) => Bool.eqb a b
            | _, _ => false
            end
  end.

(** [s == v] for a non-dict value [v] (a list compares element-wise and
    must have the column's length) *)
Definition eq_col (s : list (nat * cell)) (v : pyval) : result (list (nat * bool)) :=
  match v with
  | PList vs =>
      if Nat.eqb (length vs) (length s)
      then Ok (map (fun '((l, c), x) => (l, cell_eq c x)) (combine s vs))
      else Err ValueError
  | _ => Ok (map (fun '(l, c) => (l, cell_eq c v)) s)
  end.

(** [s.isin(values)]: [values] must be list-like; a null matches a null *)
Definition isin_col (s : list (nat * cell)) (vs : pyval) : result (list (nat * bool)) :=
  let mem (xs : list pyval) (c : cell) :=
    if is_null c then existsb py_is_null xs else existsb (cell_eq c) xs in
  match vs with
  | PList xs => Ok (map (fun '(l, c) => (l, mem xs c)) s)
  | PDict d => Ok (map (fun '(l, c) => (l, mem (map (fun '(k, _) => PStr k) d) c)) s)
  | _ => Err TypeError
  end.

Definition find_label (l : nat) (m : list (nat * bool)) : option bool :=
  option_map snd (find (fun '(l', _) => Nat.eqb l l') m).

Fixpoint labels_eqb (a b : list nat) : bool :=
  match a, b with
  | [], [] => true
  | x :: a', y :: b' => Nat.eqb x y && labels_eqb a' b'
  | _, _ => false
  end.

(** [data[mask]]: a mask with the frame's own index selects by
    position; another boolean Series is first aligned on the index labels
    (tables carry unique labels, as a loaded one does) *)
Definition mask_rows (m : list (nat * bool)) (t : table) : table :=
  if labels_eqb (map fst m) (map fst (trows t)) then
    mkTable (tcols t) (map snd (List.filter (fun '(b, _) => b)
                                  (combine (map snd m) (trows t))))
  else
    mkTable (tcols t)
      (List.filter (fun '(l, _) => match find_label l m with Some true => true | _ => false end)
                   (trows t)).

(** [m1 & m2] *)
Definition and_mask (m1 m2 : list (nat * bool)) : list (nat * bool) :=
  map (fun '((l, a), (_, b)) => (l, a && b)) (combine m1 m2).

(** [lo, hi = v] *)
Definition unpack2 (v : pyval) : result (pyval * pyval) :=
  match v with
  | PList [a; b] => Ok (a, b)
  | PDict [(a, _); (b, _)] => Ok (PStr a, PStr b)
  | PStr s =>
      match list_ascii_of_string s with
      | [a; b] => Ok (PStr (String a EmptyString), PStr (String b EmptyString))
      | _ => Err ValueError
      end
  | PList _ | PDict _ => Err ValueError
  | _ => Err TypeError
  end.

(** position and dtype of column [k] ([k in data.columns]) *)
Fixpoint col_index_from (n : nat) (k : string) (cs : list (string * dtype))
  : option (nat * dtype) :=
  match cs with
  | [] => None
  | (c, dt) :: r => if String.eqb k c then Some (n, dt) else col_index_from (S n) k r
  end.
Definition col_index (k : string) (t : table) : option (nat * dtype) :=
  col_index_from 0 k (tcols t).

(** [data[k]] *)
Definition column (t : table) (i : nat) : list (nat * cell) :=
  map (fun '(l, cs) => (l, nth i cs CNone)) (trows t).

Definition regex_meta (c : ascii) : bool :=
  existsb (Ascii.eqb c) (list_ascii_of_string ".^$*+?{}[]\|()").

Notation "a +s+ b" := (String.append a b) (at level 60, right associativity).

Fixpoint join (sep : string) (l : list string) : string :=
  match l with
  | [] => ""
  | [x] => x
  | x :: r => x +s+ sep +s+ join sep r
  end.

Section Pandas.

(** [repr] of a finite binary64 value (Python's shortest round-trip
    digits), kept abstract *)
Variable float_repr : Q -> string.
(** [re.search(pat, x, re.IGNORECASE)] for a pattern that uses regular
    expression syntax, kept abstract; patterns without metacharacters
    are matched literally below *)
Variable re_search_ci : string -> string -> bool.
(** one pandas reduction ([count], [sum], [mean], ...) applied to the
    values of one group, and the dtype of its result column; kept
    abstract: the statements below hold for every reduction *)
Variable agg_cell : string -> dtype -> list cell -> result cell.
Variable agg_dtype : string -> dtype -> dtype.
(** the branches of [execute_plan] that no statement depends on
    (metadata operations, correlations, sort_top, isolation forest),
    by plan type *)
Variable other_branch : string -> table -> pyval -> result (table * string).

Definition fval_str (f : fval) : string :=
  match f with
  | FDec _ _ _ => match fval_x f with XFin q => float_repr q | _ => "nan" end
  | FInf neg => if neg then "-inf" else "inf"
  | FNaN => "nan"
  end.

(** [repr(v)] (strings in single quotes) *)
Fixpoint py_repr (v : pyval) : string :=
  match v with
  | PStr s => "'" +s+ s +s+ "'"
  | PList l => "[" +s+ join ", " (map py_repr l) +s+ "]"
  | PDict d => "{" +s+ join ", " (map (fun '(k, x) => "'" +s+ k +s+ "': " +s+ py_repr x) d) +s+ "}"
  | PNone => "None"
  | PBool b => if b then "True" else "False"
  | PInt z => PyStr.z_str z
  | PFloat f => fval_str f
  end.

(** [str(v)] *)
Definition py_str (v : pyval) : string :=
  match v with
  | PStr s => s
  | _ => py_repr v
  end.

(** [Series.astype(str)] on one cell *)
Definition cell_str (c : cell) : string :=
  match c with
  | CInt z => PyStr.z_str z
  | CFlt q => float_repr q
  | CNaN => "nan"
  | CStr s => s
  | CNone => "None"
  end.

(** [str.contains(pat, case=False)] on one string *)
Definition contains_ci (pat x : string) : bool :=
  if existsb regex_meta (list_ascii_of_string pat) then re_search_ci pat x
  else PyStr.py_in (PyStr.lower pat) (PyStr.lower x).

Definition str_mask (f : string -> bool) (s : list (nat * cell)) : list (nat * bool) :=
  map (fun '(l, c) => (l, f (cell_str c))) s.

(** the predicates of a dict-valued FilterSpec entry, in source order *)
Definition filter_dict (dt : dtype) (s : list (nat * cell)) (d : dict) (data : table)
  : result table :=
  letr d1 := match Dict.get "between" d with
             | Some b =>
                 letr p := unpack2 b in
                 letr m1 := cmp_col dt OGe s (fst p) in
                 letr m2 := cmp_col dt OLe s (snd p) in
                 Ok (mask_rows (and_mask m1 m2) data)
             | None => Ok data
             end in
  letr d2 := match Dict.get "in" d with
             | Some vs => letr m := isin_col s vs in Ok (mask_rows m d1)
             | None => Ok d1
             end in
  let d3 := match Dict.get "contains" d with
            | Some p => mask_rows (str_mask (contains_ci (py_str p)) s) d2
            | None => d2
            end in
  let d4 := match Dict.get "startswith" d with
            | Some p => mask_rows (str_mask (fun x => PyStr.startswith x (py_str p)) s) d3
            | None => d3
            end in
  let d5 := match Dict.get "endswith" d with
            | Some p => mask_rows (str_mask (fun x => PyStr.endswith x (py_str p)) s) d4
            | None => d4
            end in
  letr d6 := match Dict.get "gt" d with
             | Some x => letr m := cmp_col dt OGt s x in Ok (mask_rows m d5)
             | None => Ok d5
             end in
  letr d7 := match Dict.get "gte" d with
             | Some x => letr m := cmp_col dt OGe s x in Ok (mask_rows m d6)
             | None => Ok d6
             end in
  letr d8 := match Dict.get "lt" d with
             | Some x => letr m := cmp_col dt OLt s x in Ok (mask_rows m d7)
             | None => Ok d7
             end in
  match Dict.get "lte" d with
  | Some x => letr m := cmp_col dt OLe s x in Ok (mask_rows m d8)
  | None => Ok d8
  end.

(** one iteration of [for k, v in filters.items()] *)
Definition filter_step (data : table) (kv : string * pyval) : result table :=
  let '(k, v) := kv in
  match col_index k data with
  | None => Ok data
  | Some (i, dt) =>
      let s := column data i in
      match v with
      | PDict d => filter_dict dt s d data
      | _ => letr m := eq_col s v in Ok (mask_rows m data)
      end
  end.

Definition run_steps (items : dict) (data : table) : result table :=
  fold_left (fun acc kv => letr d := acc in filter_step d kv) items (Ok data).

(** [apply_filters]: the content of the returned frame ([df.copy()] and
    the object identity are modelled by [apply_filters_h] below) *)
Definition apply_filters (df : table) (filters : pyval) : result table :=
  let data := df in
  if negb (py_truthy filters) then Ok data else
  match filters with
  | PDict items => run_steps items data
  | _ => Err AttributeError
  end.

(* ------------------------------------------------------------------ *)
(** ** Grouping *)

(** iterating a value: [for g in v] *)
Definition py_iter (v : pyval) : result (list pyval) :=
  match v with
  | PList l => Ok l
  | PStr s => Ok (map (fun c => PStr (String c EmptyString)) (list_ascii_of_string s))
  | PDict d => Ok (map (fun '(k, _) => PStr k) d)
  | _ => Err TypeError
  end.

(** group keys: every null is the one NaN group ([dropna=False]) *)
Definition key_cell (c : cell) : cell := if is_null c then CNaN else c.

Definition key_cell_eqb (a b : cell) : bool :=
  match a, b with
  | CNaN, CNaN => true
  | CStr x, CStr y => String.eqb x y
  | _, _ => match cell_x a, cell_x b with
            | Some (XFin x), Some (XFin y) => Qeq_bool x y
            | _, _ => false
            end
  end.

Fixpoint key_eqb (a b : list cell) : bool :=
  match a, b with
  | [], [] => true
  | x :: a', y :: b' => key_cell_eqb x y && key_eqb a' b'
  | _, _ => false
  end.

(** the order of sorted group keys: numbers, then strings, NaN last *)
Definition cell_rank (c : cell) : nat :=
  match c with CInt _ | CFlt _ => 0 | CStr _ => 1 | _ => 2 end.

Definition cell_leb (a b : cell) : bool :=
  match a, b with
  | CStr x, CStr y => negb (match String.compare x y with Gt => true | _ => false end)
  | _, _ => match cell_x a, cell_x b with
            | Some (XFin x), Some (XFin y) => Qle_bool x y
            | _, _ => Nat.leb (cell_rank a) (cell_rank b)
            end
  end.

Fixpoint key_leb (a b : list cell) : bool :=
  match a, b with
  | x :: a', y :: b' =>
      if key_cell_eqb x y then key_leb a' b' else cell_leb x y
  | _, _ => true
  end.

Fixpoint insert_key (k : list cell) (l : list (list cell)) : list (list cell) :=
  match l with
  | [] => [k]
  | x :: r => if key_leb k x then k :: l else x :: insert_key k r
  end.

Fixpoint dedup_keys (l : list (list cell)) : list (list cell) :=
  match l with
  | [] => []
  | k :: r => let r' := dedup_keys r in
              if existsb (key_eqb k) r' then r' else k :: r'
  end.

(** the keys of [df.groupby(gb, dropna=False)], sorted *)
Definition row_key (idx : list nat) (cs : list cell) : list cell :=
  map (fun i => key_cell (nth i cs CNone)) idx.

Definition group_keys (idx : list nat) (t : table) : list (list cell) :=
  fold_right insert_key [] (dedup_keys (map (fun '(_, cs) => row_key idx cs) (trows t))).

Definition group_rows (idx : list nat) (t : table) (k : list cell) : list (list cell) :=
  map snd (List.filter (fun '(_, cs) => key_eqb (row_key idx cs) k) (trows t)).

(** resolve grouping names to column positions; [KeyError] for a name
    that is not a column *)
Definition group_cols (t : table) (names : list pyval) : result (list (string * (nat * dtype))) :=
  all_ok (map (fun v => match v with
                        | PStr g => match col_index g t with
                                    | Some p => Ok (g, p)
                                    | None => Err KeyError
                                    end
                        | _ => Err KeyError
                        end) names).

Definition gb_names (group_by : pyval) : result (list pyval) :=
  match group_by with
  | PStr g => Ok [PStr g]
  | _ => py_iter group_by
  end.

Definition number_rows (rows : list (list cell)) : list (nat * list cell) :=
  combine (seq 0 (length rows)) rows.

(** [df.groupby(gb, dropna=False).size().reset_index(name='row_count')] *)
Definition size_frame (t : table) (gc : list (string * (nat * dtype))) : result table :=
  if existsb (fun '(g, _) => String.eqb g "row_count") gc then Err ValueError else
  let idx := map (fun '(_, (i, _)) => i) gc in
  Ok (mkTable (map (fun '(g, (_, dt)) => (g, dt)) gc ++ [("row_count", DInt)])
        (number_rows (map (fun k => k ++ [CInt (Z.of_nat (length (group_rows idx t k)))])
                          (group_keys idx t)))).

(** [group_count] (analysis.py) *)
Definition group_count (df : table) (group_by : pyval) : result table :=
  letr gs := py_iter group_by in
  let gs' := List.filter (fun g => match g with
                                   | PStr x => match col_index x df with Some _ => true | None => false end
                                   | _ => false end) gs in
  match gs' with
  | [] => Ok (mkTable [("row_count", DInt)] [(0, [CInt (Z.of_nat (length (trows df)))])])
  | _ => letr gc := group_cols df gs' in size_frame df gc
  end.

Definition op_allowed (o : pyval) : bool :=
  match o with
  | PStr s => existsb (String.eqb s) ["count"; "sum"; "mean"; "min"; "max"; "median"; "std"]
  | _ => false
  end.

Definition op_name (o : pyval) : string := match o with PStr s => s | _ => "" end.

(** the aggregated columns: each must be a column that is not a grouping
    column ([KeyError] otherwise); an empty map raises ([ValueError]) *)
Definition agg_cols (t : table) (gnames : list string) (agg_map : dict)
  : result (list (string * string * (nat * dtype))) :=
  match agg_map with
  | [] => Err ValueError
  | _ => all_ok (map (fun '(c, o) =>
           if existsb (String.eqb c) gnames then Err KeyError else
           match col_index c t with
           | Some p => Ok (c, op_name o, p)
           | None => Err KeyError
           end) agg_map)
  end.

(** [data.groupby(gb, dropna=False).agg(agg_map).reset_index()] *)
Definition groupby_agg (t : table) (gc : list (string * (nat * dtype))) (agg_map : dict)
  : result table :=
  let idx := map (fun '(_, (i, _)) => i) gc in
  letr ac := agg_cols t (map fst gc) agg_map in
  letr rows := all_ok (map (fun k =>
      let members := group_rows idx t k in
      letr vals := all_ok (map (fun '(_, o, (i, dt)) =>
                     agg_cell o dt (map (fun cs => nth i cs CNone) members)) ac) in
      Ok (k ++ vals)) (group_keys idx t)) in
  Ok (mkTable (map (fun '(g, (_, dt)) => (g, dt)) gc
               ++ map (fun '(c, o, (_, dt)) => (c, agg_dtype o dt)) ac)
              (number_rows rows)).

(** [counts.merge(out, on=gb, how='left')]: every row of [counts] is kept,
    with the aggregates of the [out] rows that have its key, or NaN *)
Definition merge_left (counts out : table) (ng : nat) : table :=
  let nagg := length (tcols out) - ng in
  let right_cols := skipn ng (tcols out) in
  let clash := existsb (fun '(c, _) => String.eqb c "row_count") right_cols in
  let ren (c : string) := if clash && String.eqb c "row_count" then "row_count_y" else c in
  let cols := firstn ng (tcols counts)
              ++ [(if clash then "row_count_x" else "row_count", DInt)]
              ++ map (fun '(c, dt) => (ren c, dt)) right_cols in
  let rows := flat_map (fun '(_, cr) =>
      let k := firstn ng cr in
      match List.filter (fun '(_, orow) => key_eqb (firstn ng orow) k) (trows out) with
      | [] => [cr ++ repeat CNaN nagg]
      | ms => map (fun '(_, orow) => cr ++ skipn ng orow) ms
      end) (trows counts) in
  mkTable cols (number_rows rows).

(** [data.agg(agg_map).to_frame().T] *)
Definition frame_agg (t : table) (agg_map : dict) : result table :=
  letr ac := agg_cols t [] agg_map in
  letr vals := all_ok (map (fun '(_, o, (i, dt)) =>
                 agg_cell o dt (map (fun '(_, cs) => nth i cs CNone) (trows t))) ac) in
  Ok (mkTable (map (fun '(c, _, _) => (c, DObject)) ac) [(0, vals)]).

(** [aggregate] (analysis.py) *)
Definition aggregate (df : table) (group_by ops filters : pyval) : result table :=
  letr data := apply_filters df filters in
  if negb (py_truthy ops) then Ok data else
  match ops with
  | PDict od =>
      let agg_map := List.filter (fun '(c, o) => negb (String.eqb c "*") && op_allowed o) od in
      let star := match Dict.get "*" od with Some (PStr "count") => true | _ => false end in
      if py_truthy group_by then
        letr names := gb_names group_by in
        letr gc := group_cols data names in
        letr out := groupby_agg data gc agg_map in
        if star then
          letr counts := size_frame data gc in
          Ok (merge_left counts out (length gc))
        else Ok out
      else
        letr out := frame_agg data agg_map in
        if star then
          if existsb (fun '(c, _) => String.eqb c "row_count") (tcols out) then Err ValueError
          else Ok (mkTable (("row_count", DInt) :: tcols out)
                     (map (fun '(l, cs) => (l, CInt (Z.of_nat (length (trows data))) :: cs))
                          (trows out)))
        else Ok out
  | _ => Err AttributeError
  end.

(* ------------------------------------------------------------------ *)
(** ** Z-score outliers, over the reals *)

Definition Q2R' (q : Q) : R := (IZR (Qnum q) / IZR (Zpos (Qden q)))%R.

(** [Series.astype(float)]; [None] is NaN *)
Definition cell_float (c : cell) : result (option R) :=
  match c with
  | CInt z => Ok (Some (IZR z))
  | CFlt q => Ok (Some (Q2R' q))
  | CNaN | CNone => Ok None
  | CStr _ => Err ValueError
  end.

Fixpoint nonnull (xs : list (option R)) : list R :=
  match xs with
  | [] => []
  | Some x :: r => x :: nonnull r
  | None :: r => nonnull r
  end.

Definition sumR (l : list R) : R := fold_right Rplus 0%R l.

(** [s.mean()] (NaN skipped; NaN when nothing is left) *)
Definition series_mean (xs : list (option R)) : option R :=
  let v := nonnull xs in
  match length v with
  | O => None
  | n => Some (sumR v / INR n)%R
  end.

(** [s.std(ddof=ddof)]: square root of the squared deviations over
    [N - ddof] (NaN skipped; NaN when [N - ddof <= 0]) *)
Definition series_std (ddof : nat) (xs : list (option R)) : option R :=
  let v := nonnull xs in
  match series_mean xs with
  | None => None
  | Some m =>
      if Nat.leb (length v) ddof then None
      else Some (sqrt (sumR (map (fun x => (x - m) * (x - m)) v)
                       / INR (length v - ddof)))%R
  end.

Definition eps : R := (/ 1000000000)%R.

(** [z = (s - s.mean()) / (s.std(ddof=0) + 1e-9)] *)
Definition zscores (xs : list (option R)) : list (option R) :=
  map (fun x => match x, series_mean xs, series_std 0 xs with
                | Some x, Some m, Some sd => Some ((x - m) / (sd + eps))%R
                | _, _, _ => None
                end) xs.

(** [np.abs(z) >= threshold] (a NaN z is never selected) *)
Definition z_selected (thr : fval) (z : option R) : bool :=
  match z with
  | None => false
  | Some z =>
      match fval_x thr with
      | XFin t => if Rle_dec (Q2R' t) (Rabs z) then true else false
      | XInf neg => neg
      | XNaN => false
      end
  end.

(** [zscore_outliers] (analysis.py) *)
Definition zscore_outliers (df : table) (col : string) (thr : fval) : result table :=
  match col_index col df with
  | None => Err KeyError
  | Some (i, _) =>
      let s := column df i in
      letr xs := all_ok (map (fun '(_, c) => cell_float c) s) in
      let z := zscores xs in
      Ok (mask_rows (combine (map fst s) (map (z_selected thr) z)) df)
  end.

(* ------------------------------------------------------------------ *)
(** ** The plan executor (agent.py) *)

(** [d.get(k, default)] on the plan *)
Definition get_or (k : string) (d : dict) (dflt : pyval) : pyval :=
  match Dict.get k d with Some v => v | None => dflt end.

(** [ops == {'*': 'count'}] *)
Definition is_star_count (ops : pyval) : bool :=
  match ops with PDict [("*", PStr "count")] => true | _ => false end.

(** [', '.join(v)] *)
Definition py_join (v : pyval) : result string :=
  letr xs := py_iter v in
  letr ss := all_ok (map (fun x => match x with PStr s => Ok s | _ => Err TypeError end) xs) in
  Ok (join ", " ss).

(** [float(v)] *)
Definition py_float_of (v : pyval) : result fval :=
  match v with
  | PFloat f => Ok f
  | PInt z => Ok (FDec (Z.ltb z 0) (Z.abs z) 0)
  | PBool b => Ok (FDec false (if b then 1 else 0) 0)
  | PStr s => match PyNum.py_float s with Some f => Ok f | None => Err ValueError end
  | _ => Err TypeError
  end.

(** [df.select_dtypes(include=['number']).columns] *)
Definition numeric_columns (t : table) : list string :=
  map fst (List.filter (fun '(_, dt) => match dt with DObject => false | _ => true end)
                       (tcols t)).

Definition row_count_frame (n : nat) : table :=
  mkTable [("row_count", DInt)] [(0, [CInt (Z.of_nat n)])].

(** the executor's own loop for an ungrouped [{'*': 'count'}] plan *)
Definition count_step (data : table) (kv : string * pyval) : result table :=
  let '(k, v) := kv in
  match col_index k data with
  | None => Ok data
  | Some (i, dt) =>
      match v with
      | PDict d =>
          match Dict.get "between" d with
          | Some b =>
              letr p := unpack2 b in
              letr m1 := cmp_col dt OGe (column data i) (fst p) in
              letr m2 := cmp_col dt OLe (column data i) (snd p) in
              Ok (mask_rows (and_mask m1 m2) data)
          | None => letr m := eq_col (column data i) v in Ok (mask_rows m data)
          end
      | _ => letr m := eq_col (column data i) v in Ok (mask_rows m data)
      end
  end.

Definition count_filtered (df : table) (filters : pyval) : result table :=
  match filters with
  | PDict items =>
      letr data := fold_left (fun acc kv => letr d := acc in count_step d kv) items (Ok df) in
      Ok (row_count_frame (length (trows data)))
  | _ => Err AttributeError
  end.

Definition method_zscore (col : string) (thr : fval) : string :=
  "Z-score outliers on " +s+ col +s+ " (|z| >= " +s+ fval_str thr +s+ ")".

(** [execute_plan] *)
Definition execute_plan (df : table) (plan : pyval) : result (table * string) :=
  match plan with
  | PDict pd =>
      let t := get_or "type" pd (PStr "") in
      let is (x : string) := match t with PStr y => String.eqb y x | _ => false end in
      let delegated := ["meta:shape"; "meta:columns"; "meta:dtypes"; "meta:describe";
                        "meta:head"; "meta:tail"; "meta:missing"; "meta:duplicates";
                        "unique_count"; "value_counts"] in
      match find is delegated with
      | Some x => other_branch x df plan
      | None =>
      if is "group_count" then
        letr r := group_count df (get_or "group_by" pd (PList [])) in
        letr j := py_join (get_or "group_by" pd (PList [])) in
        Ok (r, "Row counts by " +s+ j)
      else if is "aggregate" then
        let ops := py_or (get_or "ops" pd (PDict [])) (PDict []) in
        let filters := py_or (get_or "filters" pd (PDict [])) (PDict []) in
        let group_by := py_or (get_or "group_by" pd (PList [])) (PList []) in
        if is_star_count ops && py_truthy group_by then
          letr r := group_count df group_by in
          letr j := py_join group_by in
          Ok (r, "Row counts by " +s+ j)
        else if is_star_count ops then
          letr r := count_filtered df filters in
          Ok (r, "Row count with optional filters")
        else
          letr r := aggregate df group_by ops filters in
          Ok (r, "Aggregate with group_by/filters")
      else if is "correlation" then other_branch "correlation" df plan
      else if is "sort_top" then other_branch "sort_top" df plan
      else
      match t with
      | PStr ty =>
          if PyStr.startswith ty "anomaly:zscore" then
            let col := get_or "col" pd PNone in
            letr thr := py_float_of (get_or "threshold" pd (PFloat (FDec false 3 0))) in
            letr c := match col with
                      | PStr c => match col_index c df with
                                  | Some _ => Ok c
                                  | None => match numeric_columns df with
                                            | c0 :: _ => Ok c0
                                            | [] => Err IndexError
                                            end
                                  end
                      | PList _ | PDict _ => Err TypeError
                      | _ => match numeric_columns df with
                             | c0 :: _ => Ok c0
                             | [] => Err IndexError
                             end
                      end in
            letr r := zscore_outliers df c thr in
            Ok (r, method_zscore c thr)
          else if String.eqb ty "anomaly:iforest" then other_branch "anomaly:iforest" df plan
          else Ok (mkTable (tcols df) (firstn 10 (trows df)), "Default preview")
      | _ => Err AttributeError
      end
      end
  | _ => Err AttributeError
  end.

End Pandas.

(* ------------------------------------------------------------------ *)
(** ** Object identity: DataFrames on a heap *)

Module Heap.

(** Python objects holding DataFrames, by address *)
Abbreviation heap := (gmap nat table).

(** a new object *)
Definition alloc (h : heap) (t : table) : heap * nat :=
  let l := fresh (dom h) in (<[l := t]> h, l).

(** whether the loop of [apply_filters] rebinds [data] to a new frame:
    some key is a column and its value is not a dict, or is a dict with
    one of the recognised predicates *)
Definition rebinds (t : table) (items : dict) : bool :=
  existsb (fun '(k, v) =>
             match col_index k t with
             | None => false
             | Some _ =>
                 match v with
                 | PDict d => existsb (fun p => Dict.mem p d)
                                ["between"; "in"; "contains"; "startswith"; "endswith";
                                 "gt"; "gte"; "lt"; "lte"]
                 | _ => true
                 end
             end) items.

(** [apply_filters] on the object at address [df]: [data = df.copy()] is a
    new object; each [data = data[mask]] is a new object again, of which
    the last one is returned *)
Definition apply_filters_h (float_repr : Q -> string) (re_search_ci : string -> string -> bool)
    (h : heap) (df : nat) (filters : pyval) : result (heap * nat) :=
  match h !! df with
  | None => Err KeyError
  | Some t =>
      let '(h1, data) := alloc h t in
      if negb (py_truthy filters) then Ok (h1, data) else
      match filters with
      | PDict items =>
          letr r := run_steps float_repr re_search_ci items t in
          if rebinds t items then Ok (alloc h1 r) else Ok (h1, data)
      | _ => Err AttributeError
      end
  end.

(** any in-place mutation of the object at address [l] *)
Definition mutate (h : heap) (l : nat) (t' : table) : heap := <[l := t']> h.

End Heap.

(* ------------------------------------------------------------------ *)
(** ** Row selection, duplicates and distinct values (analysis.py) *)

(** [df.duplicated()] (keep='first'), as a left-to-right scan: a row is
    marked when an earlier row has an equal key over all the columns;
    null cells are equal to each other, as in pandas' hashing of NaN *)
Fixpoint dup_scan (seen : list (list cell)) (l : list (list cell)) : list bool :=
  match l with
  | [] => []
  | k :: r => existsb (key_eqb k) seen :: dup_scan (k :: seen) r
  end.

(** [df.duplicated()]: a frame without columns gives an empty Series *)
Definition duplicated (df : table) : list bool :=
  match tcols df with
  | [] => []
  | _ => dup_scan [] (map (fun '(_, cs) => row_key (seq 0 (length (tcols df))) cs) (trows df))
  end.

(** [duplicates_count]: [int(df.duplicated().sum())] *)
Definition duplicates_count (df : table) : table :=
  mkTable [("duplicate_rows", DInt)]
          [(0, [CInt (Z.of_nat (length (List.filter (fun b => b) (duplicated df))))])].

(** [unique_count]: [df[col].nunique(dropna=True)], the number of distinct
    non-null values; a missing column raises KeyError *)
Definition unique_count (df : table) (col : string) : result table :=
  match col_index col df with
  | None => Err KeyError
  | Some (i, _) =>
      let vals := List.filter (fun c => negb (is_null c))
                    (map (fun '(_, cs) => nth i cs CNone) (trows df)) in
      Ok (mkTable [("column", DObject); ("unique_count", DInt)]
                  [(0, [CStr col; CInt (Z.of_nat (length (dedup_keys (map (fun c => [c]) vals))))])])
  end.

(** [df.head(n)] is [df.iloc[:n]]: the first [n] rows, or all rows but
    the last [-n] when [n] is negative *)
Definition df_head (df : table) (n : Z) : table :=
  mkTable (tcols df)
    (if Z.leb 0 n then firstn (Z.to_nat n) (trows df)
     else firstn (length (trows df) - Z.to_nat (- n)) (trows df)).

(** [df.tail(n)]: no row when [n] is 0, else [df.iloc[-n:]]: the last [n]
    rows, or all rows but the first [-n] when [n] is negative *)
Definition df_tail (df : table) (n : Z) : table :=
  mkTable (tcols df)
    (if Z.eqb n 0 then []
     else if Z.ltb 0 n then skipn (length (trows df) - Z.to_nat n) (trows df)
     else skipn (Z.to_nat (- n)) (trows df)).

(** [meta_head] and [meta_tail] (the [int(n)] conversion is the identity
    on an int) *)
Definition meta_head (df : table) (n : Z) : table := df_head df n.
Definition meta_tail (df : table) (n : Z) : table := df_tail df n.

(** [sort_top]: [data.sort_values(by=..., ascending=...)] is pandas' own
    sort and is left as a parameter. *)
Section SortTop.
Variable fr : Q -> string.
Variable rs : string -> string -> bool.
Variable sort_values : list string -> bool -> table -> result table.

Definition sort_top (df : table) (by_ : list string) (top_n : Z) (ascending : bool)
    (filters : pyval) : result table :=
  letr data := apply_filters fr rs df filters in
  let by' := List.filter (fun c => match col_index c data with Some _ => true | None => false end) by_ in
  match by' with
  | [] => Ok (df_head data top_n)
  | _ => letr s := sort_values by' ascending data in Ok (df_head s top_n)
  end.
End SortTop.

(* ------------------------------------------------------------------ *)
(** * Inputs and reference definitions used by the statements below *)

Definition sort_top_volume_plan : pyval :=
  PDict [("type", PStr "sort_top"); ("by", PList [PStr "volume"]);
         ("ascending", PBool false); ("top_n", PInt 5); ("filters", PDict [])].

Definition region_tbl : table :=
  mkTable [("region", DObject)] [(0, [CStr "TX"]); (1, [CNaN])].

Definition zscore_plan (col : pyval) : pyval :=
  PDict [("type", PStr "anomaly:zscore"); ("col", col);
         ("threshold", PFloat (FDec false 3 0))].

Definition region_tbl2 : table :=
  mkTable [("region", DObject)] [(0, [CStr "TX"]); (1, [CStr "OK"])].

Definition contains_tx : dict := [("region", PDict [("contains", PStr "tx")])].

(** [d'] is [d] narrowed: same columns, no more rows *)
Definition shrinks (d d' : table) : Prop :=
  tcols d' = tcols d /\ length (trows d') <= length (trows d).

Definition known (t : table) (kv : string * pyval) : bool :=
  match col_index (fst kv) t with Some _ => true | None => false end.

(** concrete stand-ins for the parameters of section [Pandas]: a float
    printer, a case-insensitive substring test and pandas reductions *)
Definition fr0 (q : Q) : string := "0".
Definition rs0 (p s : string) : bool := PyStr.py_in p s.
Definition ac0 (o : string) (dt : dtype) (xs : list cell) : result cell := Ok CNaN.
Definition ad0 (o : string) (dt : dtype) : dtype := DFloat.

Definition heap0 : Heap.heap := <[0 := region_tbl2]> ∅.

Definition state_tbl : table :=
  mkTable [("state_abb", DObject)] [(0, [CStr "tx"]); (1, [CStr "TX"])].

Definition null_tbl : table :=
  mkTable [("region", DObject); ("val", DFloat)]
    [(0, [CStr "TX"; CFlt 1]); (1, [CNaN; CNaN]); (2, [CStr "TX"; CFlt 2])].

Definition null_out : table :=
  mkTable [("region", DObject); ("row_count", DInt); ("val", DFloat)]
    [(0, [CStr "TX"; CInt 2; CNaN]); (1, [CNaN; CInt 1; CNaN])].

Definition count_sum_ops : dict := [("*", PStr "count"); ("val", PStr "sum")].

(** the population statistics of the spec, over the non-null values *)
Definition pop_mean (v : list R) : R := (sumR v / INR (length v))%R.

Definition pop_std (v : list R) : R :=
  sqrt (sumR (map (fun x => (x - pop_mean v) ^ 2) v) / INR (length v))%R.

(** the non-null values of column [i], as floats *)
Definition col_values (df : table) (i : nat) : list R :=
  flat_map (fun '(_, cs) => match cell_float (nth i cs CNone) with
                            | Ok (Some x) => [x]
                            | _ => []
                            end) (trows df).

(** the selection as the spec states it: [|x - mean| / (std + 1e-9) >= t] *)
Definition spec_selected (t : R) (v : list R) (c : cell) : bool :=
  match cell_float c with
  | Ok (Some x) =>
      if Rle_dec t (Rabs ((x - pop_mean v) / (pop_std v + eps))) then true else false
  | _ => false
  end.

Definition five_tbl : table :=
  mkTable [("x", DInt)] [(0, [CInt 5]); (1, [CInt 5]); (2, [CInt 5]); (3, [CInt 5])].

(** [d'] is [d] filtered: same columns, rows a sublist of those of [d] *)
Definition narrows (d d' : table) : Prop :=
  tcols d' = tcols d /\ trows d' `sublist_of` trows d.

(** group keys that are equal to themselves (cells that are not NaN-like
    floats compare reflexively) *)
Definition wf_keys (l : list (list cell)) : Prop := Forall (fun x => key_eqb x x = true) l.

Definition count_true (l : list bool) : nat := length (List.filter (fun b => b) l).

(** the [row_count] column of a group-count frame (its last column) *)
Definition row_counts (t : table) : list Z :=
  map (fun '(_, cs) => match List.last cs CNone with CInt z => z | _ => 0%Z end) (trows t).


(** the column names a plan refers to: the strings under "group_by",
    "by", "cols" and "col", the keys of "ops" other than "*", and the keys
    of "filters" *)
Definition pstrs (v : pyval) : list string :=
  match v with
  | PStr s => [s]
  | PList l => flat_map (fun x => match x with PStr s => [s] | _ => [] end) l
  | _ => []
  end.

Definition pkeys (v : pyval) : list string :=
  match v with PDict e => map fst e | _ => [] end.

Definition plan_columns (p : pyval) : list string :=
  match p with
  | PDict d =>
      flat_map (fun '(k, v) =>
        if String.eqb k "group_by" || String.eqb k "by" || String.eqb k "cols"
           || String.eqb k "col" then pstrs v
        else if String.eqb k "ops" then List.filter (fun c => negb (String.eqb c "*")) (pkeys v)
        else if String.eqb k "filters" then pkeys v
        else []) d
  | _ => []
  end.

Definition cols_ok (cols : list string) (r : option pyval) : Prop :=
  forall p, r = Some p -> Forall (fun c => In c cols) (plan_columns p).

Definition dup_tbl : table :=
  mkTable [("region", DObject); ("val", DInt)]
    [(0, [CStr "TX"; CInt 1]); (1, [CStr "TX"; CInt 1]); (2, [CNaN; CInt 2])].

(** a sort that keeps the row order *)
Definition id_sort (b : list string) (a : bool) (d : table) : result table := Ok d.

Definition tx_tbl : table := mkTable [("region", DObject)] [(0, [CStr "TX"])].

(* ------------------------------------------------------------------ *)
(** * Checks on concrete inputs *)

Example coerce_int : coerce_literal "-1_000" = PInt (-1000).
Proof. vm_compute. reflexivity. Qed.
Example coerce_inf : coerce_literal "inf" = PFloat (FInf false).
Proof. vm_compute. reflexivity. Qed.

Example re_year_ex : option_map (fun cp => Re.group "sum in 2024" cp 1)
  (Re.search Re.p_year "sum in 2024") = Some "2024".
Proof. vm_compute. reflexivity. Qed.

Example re_by_ex : option_map (fun cp => Re.group "top 5 rows by volume" cp 1)
  (Re.search Re.p_by_per_end "top 5 rows by volume") = Some "volume".
Proof. vm_compute. reflexivity. Qed.

Example re_eq_ex :
  option_map (fun cp => (Re.group "count rows where state_abb = tx" cp 1,
                         Re.group "count rows where state_abb = tx" cp 2))
  (Re.search Re.p_where_eq "count rows where state_abb = tx")
  = Some ("state_abb ", "tx").
Proof. vm_compute. reflexivity. Qed.

Example coerce_tx : coerce_literal "tx" = PStr "TX".
Proof. vm_compute. reflexivity. Qed.

Example coerce_exp : coerce_literal "2e-3" = PFloat (FDec false 2 (-3)).
Proof. vm_compute. reflexivity. Qed.

Example coerce_long : coerce_literal "texas" = PStr "TEXAS" /\
                      coerce_literal "dallas" = PStr "dallas".
Proof. vm_compute. split; reflexivity. Qed.

Example plan_how_many_rows :
  Planner.plan_from_nl Planner.no_close_matches "how many rows" ["volume"; "region"]
  = Planner.default_plan.
Proof. vm_compute. reflexivity. Qed.

Example plan_avg_by_region :
  Planner.plan_from_nl Planner.no_close_matches "average delay_hours by region"
    ["delay_hours"; "region"]
  = Planner.plan_aggregate ["region"] [("delay_hours", PStr "mean")] [].
Proof. vm_compute. reflexivity. Qed.

Example plan_top_row_singular :
  Planner.plan_from_nl Planner.no_close_matches "top 5 row by volume" ["volume"; "region"]
  = PDict [("type", PStr "sort_top"); ("by", PList [PStr "volume"]);
           ("ascending", PBool false); ("top_n", PInt 5); ("filters", PDict [])].
Proof. vm_compute. reflexivity. Qed.

(* ------------------------------------------------------------------ *)
(** * The claims *)

(** C1 (code_bug).  On "top 5 rows by volume" with columns
    ["volume"; "region"] the row-count rule, tested before the top-N rule,
    matches the token "rows" and the suffix "by volume", so the planner
    returns the group-count plan on "volume" and never the sort_top plan
    of the spec's example, although the top-N rule alone would build
    exactly that plan. *)
Theorem plan_top5_rows_by_volume_is_group_count :
  forall gcm : string -> list string -> nat -> Q -> list string,
    Planner.plan_from_nl gcm "top 5 rows by volume" ["volume"; "region"]
      = PDict [("type", PStr "group_count"); ("group_by", PList [PStr "volume"])]
    /\ Planner.rule_top gcm "top 5 rows by volume" ["volume"; "region"] []
      = Some sort_top_volume_plan.
Proof. intros gcm. split; vm_compute; reflexivity. Qed.

(** C2 (code_bug).  An anomaly:zscore plan whose column is absent from a
    table without numeric columns makes the executor raise IndexError
    (taking [columns[0]] of an empty list), both for the plan the planner
    builds on a table with no columns and for an explicit missing column;
    and the planner's own fallback to the first column makes a text column
    raise ValueError in [astype(float)].  None of these is caught, so the
    session loop ends. *)
Theorem zscore_without_numeric_columns_raises :
  forall (fr : Q -> string) (rs : string -> string -> bool)
         (ac : string -> dtype -> list cell -> result cell) (ad : string -> dtype -> dtype)
         (ob : string -> table -> pyval -> result (table * string)),
    execute_plan fr rs ac ad ob (mkTable [] [])
      (Planner.plan_from_nl Planner.no_close_matches "show outliers" []) = Err IndexError
    /\ execute_plan fr rs ac ad ob region_tbl (zscore_plan (PStr "volume")) = Err IndexError
    /\ execute_plan fr rs ac ad ob region_tbl (zscore_plan PNone) = Err IndexError
    /\ execute_plan fr rs ac ad ob region_tbl
         (Planner.plan_from_nl Planner.no_close_matches "any outliers?" ["region"])
       = Err ValueError.
Proof. intros. repeat split; vm_compute; reflexivity. Qed.

(** C3 (code_bug).  [apply_filters] turns a null cell into the text "nan"
    before the string predicate, so a null row satisfies [contains "nan"];
    and only [contains] ignores case: [startswith "t"] rejects "TX" while
    [contains "t"] accepts it. *)
Theorem string_predicates_nulls_and_case :
  forall (fr : Q -> string) (rs : string -> string -> bool),
    apply_filters fr rs region_tbl (PDict [("region", PDict [("contains", PStr "nan")])])
      = Ok (mkTable [("region", DObject)] [(1, [CNaN])])
    /\ apply_filters fr rs region_tbl (PDict [("region", PDict [("startswith", PStr "t")])])
      = Ok (mkTable [("region", DObject)] [])
    /\ apply_filters fr rs region_tbl (PDict [("region", PDict [("endswith", PStr "x")])])
      = Ok (mkTable [("region", DObject)] [])
    /\ apply_filters fr rs region_tbl (PDict [("region", PDict [("contains", PStr "t")])])
      = Ok (mkTable [("region", DObject)] [(0, [CStr "TX"])]).
Proof. intros. repeat split; vm_compute; reflexivity. Qed.

(** C4 (code_bug).  For "how many rows where region contains tx" the
    planner builds an ungrouped [{'*': 'count'}] aggregate carrying the
    filter [{'region': {'contains': 'tx'}}]; the executor's own count loop
    treats that dict as an equality value, matches no row and answers 0,
    where [apply_filters] keeps the "TX" row. *)
Theorem star_count_ignores_contains_filter :
  forall (fr : Q -> string) (rs : string -> string -> bool)
         (ac : string -> dtype -> list cell -> result cell) (ad : string -> dtype -> dtype)
         (ob : string -> table -> pyval -> result (table * string)),
    Planner.plan_from_nl Planner.no_close_matches "how many rows where region contains tx"
      ["region"] = Planner.plan_aggregate [] [("*", PStr "count")] contains_tx
    /\ execute_plan fr rs ac ad ob region_tbl2
         (Planner.plan_aggregate [] [("*", PStr "count")] contains_tx)
       = Ok (row_count_frame 0, "Row count with optional filters")
    /\ apply_filters fr rs region_tbl2 (PDict contains_tx)
       = Ok (mkTable [("region", DObject)] [(0, [CStr "TX"])]).
Proof. intros. repeat split; vm_compute; reflexivity. Qed.

(* ------------------------------------------------------------------ *)
(** ** Lemmas on the filter engine *)

Lemma shrinks_refl d : shrinks d d.
Proof. split; [reflexivity | lia]. Qed.

Lemma shrinks_trans a b c : shrinks a b -> shrinks b c -> shrinks a c.
Proof. intros [H1 H2] [H3 H4]. split; [congruence | lia]. Qed.

Lemma length_map_snd_filter {A} (bs : list bool) (l : list A) :
  length (map snd (List.filter (fun '(b, _) => b) (combine bs l))) <= length l.
Proof.
  revert l; induction bs as [|b bs IH]; intros [|x l]; simpl; try lia.
  destruct b; simpl; specialize (IH l); lia.
Qed.

Lemma filter_length_le {A} (f : A -> bool) (l : list A) :
  length (List.filter f l) <= length l.
Proof. induction l; simpl; try destruct (f a); simpl; lia. Qed.

Lemma mask_rows_shrinks m d d' : shrinks d d' -> shrinks d (mask_rows m d').
Proof.
  intros Hd. eapply shrinks_trans; [exact Hd|].
  unfold mask_rows. destruct (labels_eqb _ _); split; simpl; auto.
  - apply length_map_snd_filter.
  - apply filter_length_le.
Qed.

Create HintDb shrinkdb.
Global Hint Resolve shrinks_refl mask_rows_shrinks : shrinkdb.

(** take apart a chain of [letr] and [match] ending in [Ok] *)
Ltac take_apart :=
  repeat match goal with
  | H : bind ?m _ = Ok _ |- _ =>
      let E := fresh "E" in destruct m eqn:E; simpl in H; [|discriminate]
  | H : match ?x with _ => _ end = Ok _ |- _ =>
      let E := fresh "E" in destruct x eqn:E; simpl in H; try discriminate
  | H : Ok _ = Ok _ |- _ => injection H as H; subst
  end.

Lemma filter_dict_shrinks fr rs dt s d data r :
  filter_dict fr rs dt s d data = Ok r -> shrinks data r.
Proof.
  unfold filter_dict; cbv zeta. intros H.
  take_apart;
    repeat match goal with |- context [match ?x with _ => _ end] => destruct x end;
    repeat apply mask_rows_shrinks; apply shrinks_refl.
Qed.

Lemma filter_step_shrinks fr rs d kv r :
  filter_step fr rs d kv = Ok r -> shrinks d r.
Proof.
  destruct kv as [k v]; unfold filter_step. intros H.
  destruct (col_index k d) as [[i dt]|]; [|injection H as <-; apply shrinks_refl].
  destruct v; try (take_apart; auto with shrinkdb; fail).
  eapply filter_dict_shrinks; eassumption.
Qed.

Lemma fold_err {A} (f : A -> table -> result table) (l : list A) e :
  fold_left (fun acc kv => letr d := acc in f kv d) l (Err e) = Err e.
Proof. induction l; simpl; auto. Qed.

Lemma run_steps_shrinks fr rs items d r :
  run_steps fr rs items d = Ok r -> shrinks d r.
Proof.
  unfold run_steps. revert d. induction items as [|kv items IH]; simpl; intros d H.
  - injection H as <-. apply shrinks_refl.
  - destruct (filter_step fr rs d kv) as [d1|e] eqn:E.
    + eapply shrinks_trans; [eapply filter_step_shrinks; eassumption|]. apply IH; exact H.
    + rewrite (fold_err (fun kv d => filter_step fr rs d kv)) in H. discriminate.
Qed.

Lemma apply_filters_shrinks fr rs t f t' :
  apply_filters fr rs t f = Ok t' -> shrinks t t'.
Proof.
  unfold apply_filters. destruct (negb (py_truthy f)).
  - intros H; injection H as <-; apply shrinks_refl.
  - destruct f; try discriminate. apply run_steps_shrinks.
Qed.

Lemma col_index_cols k d d' : tcols d' = tcols d -> col_index k d' = col_index k d.
Proof. unfold col_index. intros ->. reflexivity. Qed.

Lemma filter_step_unknown fr rs d kv :
  known d kv = false -> filter_step fr rs d kv = Ok d.
Proof.
  destruct kv as [k v]; unfold known, filter_step; simpl.
  destruct (col_index k d); [discriminate | reflexivity].
Qed.

Lemma run_steps_known fr rs items d :
  run_steps fr rs items d = run_steps fr rs (List.filter (known d) items) d.
Proof.
  unfold run_steps. revert d. induction items as [|kv items IH]; intros d; [reflexivity|].
  cbn [fold_left List.filter bind].
  destruct (known d kv) eqn:Ek.
  - cbn [fold_left bind].
    destruct (filter_step fr rs d kv) as [d1|e] eqn:E1.
    + assert (Hs : shrinks d d1) by (eapply filter_step_shrinks; exact E1).
      rewrite IH. f_equal. apply List.filter_ext. intros [k' v'].
      unfold known; simpl. rewrite (col_index_cols k' d d1) by apply Hs. reflexivity.
    + rewrite !(fold_err (fun kv d => filter_step fr rs d kv)). reflexivity.
  - rewrite (filter_step_unknown fr rs d kv Ek). apply IH.
Qed.

Lemma run_steps_nil fr rs d : run_steps fr rs [] d = Ok d.
Proof. reflexivity. Qed.

Lemma apply_filters_known fr rs t items :
  apply_filters fr rs t (PDict items) = apply_filters fr rs t (PDict (List.filter (known t) items)).
Proof.
  unfold apply_filters. cbn [py_truthy].
  destruct items as [|kv items]; [reflexivity|].
  cbn [length Nat.eqb negb].
  rewrite run_steps_known.
  destruct (List.filter (known t) (kv :: items)) eqn:E; reflexivity.
Qed.

Lemma py_or_dict_nil d : py_or (PDict d) (PDict []) = PDict d.
Proof. destruct d; reflexivity. Qed.

(* ------------------------------------------------------------------ *)
(** ** Statements on filters, heaps, the planner and grouping *)

(** C6: in [apply_filters], a key of the FilterSpec that is not a column
    of the table is skipped: the result is the one of the FilterSpec
    without those keys, so a FilterSpec of unknown keys only returns the
    table unchanged; and a successful [apply_filters] never returns more
    rows than it was given. *)
Theorem apply_filters_skips_unknown_keys_and_never_adds_rows :
  forall fr rs (t : table) (items : dict),
    apply_filters fr rs t (PDict items)
      = apply_filters fr rs t (PDict (List.filter (known t) items))
    /\ (List.filter (known t) items = [] -> apply_filters fr rs t (PDict items) = Ok t)
    /\ (forall f t', apply_filters fr rs t f = Ok t' -> length (trows t') <= length (trows t)).
Proof.
  intros fr rs t items. split; [|split].
  - apply apply_filters_known.
  - intros E. rewrite apply_filters_known, E. reflexivity.
  - intros f t' H. apply (apply_filters_shrinks _ _ _ _ _ H).
Qed.

(** C9: [aggregate] with a falsy [ops] ([None] or [{}]) returns
    [apply_filters(df, filters)] itself, whatever [group_by] is; the
    executor runs an [aggregate] plan with empty [ops] that way; and the
    planner's sum and average rules emit [ops = {}] when no target column
    resolves, e.g. for the question "total" over the columns [region]. *)
Theorem aggregate_without_ops_returns_filtered_table :
  (forall fr rs ac ad df group_by ops filters,
     py_truthy ops = false ->
     aggregate fr rs ac ad df group_by ops filters = apply_filters fr rs df filters)
  /\ (forall fr rs ac ad ob df gb f,
     execute_plan fr rs ac ad ob df (Planner.plan_aggregate gb [] f)
       = letr r := apply_filters fr rs df (PDict f) in
         Ok (r, "Aggregate with group_by/filters"))
  /\ (forall gcm q cols year filters,
     Planner.any_in ["sum"; "total"] q = true ->
     Planner.truthy (Planner.first_present gcm cols
        ["scheduled_quantity"; "shipments"; "volume"; "amount"; "value"]) = false ->
     exists gb f, Planner.rule_sum gcm q cols year filters = Some (Planner.plan_aggregate gb [] f))
  /\ (forall gcm q cols year filters,
     Planner.any_in ["average"; "mean"; "avg"] q = true ->
     Planner.truthy (Planner.or_str (Planner.resolve_col_from_text gcm q cols)
        (Planner.first_present gcm cols
           ["scheduled_quantity"; "shipments"; "volume"; "delay_hours"; "amount"; "value"]))
        = false ->
     exists gb f, Planner.rule_avg gcm q cols year filters = Some (Planner.plan_aggregate gb [] f))
  /\ Planner.plan_from_nl Planner.no_close_matches "total" ["region"]
       = Planner.plan_aggregate [] [] [].
Proof.
  assert (Hops : forall target op, Planner.truthy target = false -> Planner.ops_of target op = []).
  { intros [s|] op H; simpl in *; [rewrite H|]; reflexivity. }
  split; [|split; [|split; [|split]]].
  - intros fr rs ac ad df group_by ops filters H.
    unfold aggregate. rewrite H. simpl.
    destruct (apply_filters fr rs df filters); reflexivity.
  - intros fr rs ac ad ob df gb f.
    unfold execute_plan, Planner.plan_aggregate. cbn -[apply_filters].
    rewrite py_or_dict_nil. unfold aggregate. cbn -[apply_filters].
    destruct (apply_filters fr rs df (PDict f)); reflexivity.
  - intros gcm q cols year filters Hq Ht. unfold Planner.rule_sum. rewrite Hq.
    rewrite (Hops _ _ Ht). eauto.
  - intros gcm q cols year filters Hq Ht. unfold Planner.rule_avg. rewrite Hq.
    rewrite (Hops _ _ Ht). eauto.
  - vm_compute. reflexivity.
Qed.

Lemma apply_filters_skips_unknown_keys_witness :
  List.filter (known region_tbl2) [("state", PStr "x")] = []
  /\ apply_filters fr0 rs0 region_tbl2 (PDict [("state", PStr "x")]) = Ok region_tbl2
  /\ length (trows (mkTable [("region", DObject)] [(0, [CStr "TX"])]))
       <= length (trows region_tbl2).
Proof.
  destruct (apply_filters_skips_unknown_keys_and_never_adds_rows fr0 rs0 region_tbl2
              [("state", PStr "x")]) as [_ [H2 H3]].
  split; [reflexivity|]. split; [apply H2; reflexivity|].
  apply (H3 (PDict contains_tx)). vm_compute. reflexivity.
Defined.

Lemma aggregate_without_ops_witness :
  aggregate fr0 rs0 ac0 ad0 region_tbl2 (PList [PStr "region"]) PNone (PDict contains_tx)
    = apply_filters fr0 rs0 region_tbl2 (PDict contains_tx)
  /\ (exists gb f, Planner.rule_sum Planner.no_close_matches "total" ["region"] None []
                   = Some (Planner.plan_aggregate gb [] f))
  /\ (exists gb f, Planner.rule_avg Planner.no_close_matches "mean" ["region"] None []
                   = Some (Planner.plan_aggregate gb [] f)).
Proof.
  destruct aggregate_without_ops_returns_filtered_table as [H1 [_ [H3 [H4 _]]]].
  split; [apply H1; reflexivity|]. split.
  - apply H3; vm_compute; reflexivity.
  - apply H4; vm_compute; reflexivity.
Defined.

Lemma alloc_fresh (h : Heap.heap) (df : nat) (t : table) :
  h !! df = Some t -> fresh (dom h) <> df /\ h !! fresh (dom h) = None.
Proof.
  intros H. assert (Hn : h !! fresh (dom h) = None).
  { apply not_elem_of_dom. apply is_fresh. }
  split; [intros E; rewrite E in Hn; congruence | exact Hn].
Qed.

(** C8: [apply_filters] with a falsy FilterSpec ([None] or [{}]) on the
    object at address [df] holding table [t] returns a new object [l],
    distinct from [df], holding [t] itself; no other object changes, and
    any mutation of the returned object leaves [df] holding [t]. *)
Theorem apply_filters_empty_returns_distinct_copy :
  forall fr rs (h : Heap.heap) (df : nat) (t : table) (filters : pyval),
    h !! df = Some t -> py_truthy filters = false ->
    exists h' l,
      Heap.apply_filters_h fr rs h df filters = Ok (h', l)
      /\ l <> df /\ h' !! l = Some t /\ apply_filters fr rs t filters = Ok t
      /\ (forall a, a <> l -> h' !! a = h !! a)
      /\ (forall t', Heap.mutate h' l t' !! df = Some t).
Proof.
  intros fr rs h df t filters Hdf Hf.
  destruct (alloc_fresh h df t Hdf) as [Hne Hnone].
  exists (<[fresh (dom h) := t]> h), (fresh (dom h)).
  unfold Heap.apply_filters_h, Heap.alloc. rewrite Hdf, Hf. simpl.
  split; [reflexivity|]. split; [exact Hne|]. split; [apply lookup_insert_eq|].
  split; [unfold apply_filters; rewrite Hf; reflexivity|]. split.
  - intros a Ha. apply lookup_insert_ne. congruence.
  - intros t'. unfold Heap.mutate.
    rewrite lookup_insert_ne by congruence. rewrite lookup_insert_ne by congruence. exact Hdf.
Qed.

Lemma apply_filters_empty_copy_witness :
  exists h' l,
    Heap.apply_filters_h fr0 rs0 heap0 0 (PDict []) = Ok (h', l)
    /\ l <> 0 /\ h' !! l = Some region_tbl2 /\ apply_filters fr0 rs0 region_tbl2 (PDict []) = Ok region_tbl2
    /\ (forall a, a <> l -> h' !! a = heap0 !! a)
    /\ (forall t', Heap.mutate h' l t' !! 0 = Some region_tbl2).
Proof.
  apply (apply_filters_empty_returns_distinct_copy fr0 rs0 heap0 0 region_tbl2 (PDict []));
    reflexivity.
Defined.

Lemma dict_get_set_eq k v d : Dict.get k (Dict.set k v d) = Some v.
Proof.
  induction d as [|[k' v'] d IH]; simpl.
  - rewrite String.eqb_refl. reflexivity.
  - destruct (String.eqb k k') eqn:E; simpl.
    + rewrite String.eqb_refl. reflexivity.
    + rewrite E. exact IH.
Qed.

Lemma dict_get_set_ne k k' v d : k <> k' -> Dict.get k (Dict.set k' v d) = Dict.get k d.
Proof.
  intros Hne. induction d as [|[k'' v'] d IH]; simpl.
  - apply String.eqb_neq in Hne. rewrite Hne. reflexivity.
  - destruct (String.eqb k' k'') eqn:E; simpl.
    + apply String.eqb_eq in E. subst k''.
      apply String.eqb_neq in Hne. rewrite Hne. reflexivity.
    + destruct (String.eqb k k''); [reflexivity | exact IH].
Qed.

(** C10: when the "where <column> = <value>" pattern matches and its
    column resolves to a non-empty name [c] (and no "contains" phrase
    resolves to the same column), the FilterSpec maps [c] to
    [coerce_literal] of the stripped value; [coerce_literal] gives an int
    if [int()] parses the text, else a float if [float()] parses it, else
    the text uppercased when it has at most 5 characters and unchanged
    otherwise.  So "how many rows where state_abb = tx" filters on "TX",
    and equality filtering on that value keeps the "TX" row and drops the
    "tx" one. *)
Theorem where_equality_literal_coerced :
  (forall gcm q cols cp c,
     Re.search Re.p_where_eq q = Some cp ->
     Planner.resolve_col_from_text gcm (Re.group q cp 1) cols = Some c ->
     c <> "" ->
     (forall cp', Re.search Re.p_where_contains q = Some cp' ->
        Planner.resolve_col_from_text gcm (Re.group q cp' 1) cols <> Some c) ->
     Dict.get c (Planner.extract_filters gcm q cols)
       = Some (coerce_literal (PyStr.strip (Re.group q cp 2))))
  /\ (forall s z, PyNum.py_int s = Some z -> coerce_literal s = PInt z)
  /\ (forall s f, PyNum.py_int s = None -> PyNum.py_float s = Some f ->
        coerce_literal s = PFloat f)
  /\ (forall s, PyNum.py_int s = None -> PyNum.py_float s = None ->
        coerce_literal s = PStr (if Nat.leb (PyStr.len s) 5 then PyStr.upper s else s))
  /\ coerce_literal "tx" = PStr "TX" /\ coerce_literal "12" = PInt 12
  /\ coerce_literal "dallas" = PStr "dallas"
  /\ Planner.plan_from_nl Planner.no_close_matches "how many rows where state_abb = tx"
       ["state_abb"]
     = Planner.plan_aggregate [] [("*", PStr "count")] [("state_abb", PStr "TX")]
  /\ (forall fr rs, apply_filters fr rs state_tbl (PDict [("state_abb", PStr "TX")])
       = Ok (mkTable [("state_abb", DObject)] [(1, [CStr "TX"])])).
Proof.
  split; [|split; [|split; [|split]]].
  - intros gcm q cols cp c Hm Hc Hne Hcont.
    unfold Planner.extract_filters. rewrite Hm. cbv zeta. rewrite Hc.
    assert (Ht : Planner.truthy (Some c) = true).
    { simpl. apply String.eqb_neq in Hne. rewrite Hne. reflexivity. }
    rewrite Ht.
    destruct (Re.search Re.p_where_contains q) as [cp'|] eqn:Ec.
    + specialize (Hcont cp' eq_refl).
      destruct (Planner.resolve_col_from_text gcm (Re.group q cp' 1) cols) as [c'|] eqn:Ec'.
      * destruct (Planner.truthy (Some c')).
        -- rewrite dict_get_set_ne by congruence. apply dict_get_set_eq.
        -- apply dict_get_set_eq.
      * apply dict_get_set_eq.
    + apply dict_get_set_eq.
  - intros s z H. unfold coerce_literal. rewrite H. reflexivity.
  - intros s f H1 H2. unfold coerce_literal. rewrite H1, H2. reflexivity.
  - intros s H1 H2. unfold coerce_literal. rewrite H1, H2. reflexivity.
  - repeat split; intros; vm_compute; reflexivity.
Qed.

Lemma where_equality_literal_witness :
  (exists cp, Re.search Re.p_where_eq "how many rows where state_abb = tx" = Some cp
     /\ Dict.get "state_abb"
          (Planner.extract_filters Planner.no_close_matches
             "how many rows where state_abb = tx" ["state_abb"])
        = Some (coerce_literal (PyStr.strip (Re.group "how many rows where state_abb = tx" cp 2))))
  /\ coerce_literal "12" = PInt 12
  /\ coerce_literal "2.5" = PFloat (FDec false 25 (-1))
  /\ coerce_literal "texas" = PStr "TEXAS".
Proof.
  destruct where_equality_literal_coerced as [H1 [H2 [H3 [H4 _]]]].
  split; [|split; [|split]].
  - eexists. split; [vm_compute; reflexivity|].
    apply H1.
    + vm_compute. reflexivity.
    + vm_compute. reflexivity.
    + discriminate.
    + intros cp' E. vm_compute in E. discriminate.
  - apply H2. vm_compute. reflexivity.
  - apply H3; vm_compute; reflexivity.
  - apply H4; vm_compute; reflexivity.
Defined.

Lemma map_snd_combine_seq {A} (rows : list A) n :
  map snd (combine (seq n (length rows)) rows) = rows.
Proof. revert n; induction rows as [|r rows IH]; intros n; simpl; [reflexivity|]. f_equal. apply IH. Qed.

Lemma map_snd_number_rows rows : map snd (number_rows rows) = rows.
Proof. apply map_snd_combine_seq. Qed.

Lemma key_cell_eqb_refl c : key_cell_eqb (key_cell c) (key_cell c) = true.
Proof.
  destruct c; simpl; try reflexivity.
  - apply Qeq_bool_refl.
  - apply Qeq_bool_refl.
  - apply String.eqb_refl.
Qed.

Lemma row_key_refl idx cs : key_eqb (row_key idx cs) (row_key idx cs) = true.
Proof.
  unfold row_key. induction idx as [|i idx IH]; simpl; [reflexivity|].
  rewrite key_cell_eqb_refl. exact IH.
Qed.

Lemma dedup_keys_covers (l : list (list cell)) k :
  Forall (fun x => key_eqb x x = true) l -> In k l ->
  exists k', In k' (dedup_keys l) /\ key_eqb k k' = true.
Proof.
  induction l as [|x r IH]; intros Hf Hin; [destruct Hin|].
  inversion Hf as [|? ? Hx Hr]; subst. simpl.
  destruct Hin as [-> | Hin].
  - destruct (existsb (key_eqb k) (dedup_keys r)) eqn:E.
    + apply existsb_exists in E. exact E.
    + exists k. split; [left; reflexivity | exact Hx].
  - destruct (IH Hr Hin) as [k' [Hk' Heq]]. exists k'. split; [|exact Heq].
    destruct (existsb (key_eqb x) (dedup_keys r)); [exact Hk' | right; exact Hk'].
Qed.

Lemma insert_key_in y k l : y = k \/ In y l -> In y (insert_key k l).
Proof.
  induction l as [|x l IH]; simpl; intros H.
  - destruct H as [-> | []]. left; reflexivity.
  - destruct (key_leb k x).
    + destruct H as [-> | H]; [left; reflexivity | right; exact H].
    + destruct H as [H | [H | H]]; [right; apply IH; left; exact H
                                   | left; exact H
                                   | right; apply IH; right; exact H].
Qed.

Lemma fold_insert_key_in y l : In y l -> In y (fold_right insert_key [] l).
Proof.
  induction l as [|x l IH]; simpl; intros H; [destruct H|].
  apply insert_key_in. destruct H as [<- | H]; [left; reflexivity | right; apply IH; exact H].
Qed.

Lemma group_keys_cover idx t l cs :
  In (l, cs) (trows t) ->
  exists k, In k (group_keys idx t) /\ key_eqb (row_key idx cs) k = true.
Proof.
  intros Hin. unfold group_keys.
  destruct (dedup_keys_covers (map (fun '(_, cs) => row_key idx cs) (trows t)) (row_key idx cs))
    as [k [Hk Heq]].
  - apply List.Forall_forall. intros x Hx. apply in_map_iff in Hx as [[l' cs'] [<- _]].
    apply row_key_refl.
  - apply in_map_iff. exists (l, cs). split; [reflexivity | exact Hin].
  - exists k. split; [apply fold_insert_key_in; exact Hk | exact Heq].
Qed.

Lemma merge_left_keeps_rows counts out0 ng r :
  In r (map snd (trows counts)) ->
  exists rest, In (r ++ rest) (map snd (trows (merge_left counts out0 ng))).
Proof.
  intros Hr. apply in_map_iff in Hr as [[l r'] [Heq Hin]]. simpl in Heq. subst r'.
  unfold merge_left. cbn [trows]. rewrite map_snd_number_rows.
  match goal with |- context [flat_map ?F _] => set (G := F) end.
  assert (Hg : exists rest, In (r ++ rest) (G (l, r))).
  { unfold G. destruct (List.filter _ (trows out0)) as [|[l0 o0] ms].
    - exists (repeat CNaN (length (tcols out0) - ng)). left; reflexivity.
    - exists (skipn ng o0). left; reflexivity. }
  destruct Hg as [rest Hrest]. exists rest. apply in_flat_map. exists (l, r). split; assumption.
Qed.

Lemma dict_get_nonempty k v (d : dict) : Dict.get k d = Some v -> py_truthy (PDict d) = true.
Proof. destruct d; [discriminate | reflexivity]. Qed.

(** C5: for an [aggregate] call with a truthy [group_by] and [ops]
    containing ['*': 'count'], the output keeps every row of the size
    count [counts]: each of its rows is the prefix of an output row (the
    left join), whatever the value aggregates of that group are; and
    every row of the filtered table, null keys included (grouped as one
    NaN key), has its group key among the rows of [counts]. *)
Theorem aggregate_star_count_keeps_every_group :
  forall fr rs ac ad df group_by od filters out,
    py_truthy group_by = true ->
    Dict.get "*" od = Some (PStr "count") ->
    aggregate fr rs ac ad df group_by (PDict od) filters = Ok out ->
    exists data names gc counts,
      apply_filters fr rs df filters = Ok data
      /\ gb_names group_by = Ok names
      /\ group_cols data names = Ok gc
      /\ size_frame data gc = Ok counts
      /\ (forall r, In r (map snd (trows counts)) ->
            exists rest, In (r ++ rest) (map snd (trows out)))
      /\ (forall l cs, In (l, cs) (trows data) ->
            exists k n, In (k ++ [CInt n]) (map snd (trows counts))
              /\ key_eqb (row_key (map (fun '(_, (i, _)) => i) gc) cs) k = true).
Proof.
  intros fr rs ac ad df group_by od filters out Hgb Hstar Hagg.
  unfold aggregate in Hagg.
  destruct (apply_filters fr rs df filters) as [data|e] eqn:Ed; [|discriminate].
  cbn [bind] in Hagg.
  rewrite (dict_get_nonempty _ _ _ Hstar), Hgb, Hstar in Hagg. cbn [negb] in Hagg.
  destruct (gb_names group_by) as [names|e] eqn:En; [|discriminate]. cbn [bind] in Hagg.
  destruct (group_cols data names) as [gc|e] eqn:Eg; [|discriminate]. cbn [bind] in Hagg.
  destruct (groupby_agg ac ad data gc _) as [out0|e] eqn:Eo; [|discriminate]. cbn [bind] in Hagg.
  destruct (size_frame data gc) as [counts|e] eqn:Ec; [|discriminate]. cbn [bind] in Hagg.
  injection Hagg as <-.
  exists data, names, gc, counts.
  do 4 (split; [first [reflexivity | assumption]|]). split.
  - intros r Hr. apply merge_left_keeps_rows. exact Hr.
  - intros l cs Hin.
    destruct (group_keys_cover (map (fun '(_, (i, _)) => i) gc) data l cs Hin) as [k [Hk Heq]].
    unfold size_frame in Ec.
    destruct (existsb _ gc); [discriminate|]. injection Ec as <-. cbn [trows].
    rewrite map_snd_number_rows.
    eexists k, _. split; [apply in_map_iff; exists k; split; [reflexivity | exact Hk] | exact Heq].
Qed.

Lemma aggregate_star_count_witness :
  aggregate fr0 rs0 ac0 ad0 null_tbl (PList [PStr "region"]) (PDict count_sum_ops) (PDict [])
    = Ok null_out
  /\ exists data names gc counts,
      apply_filters fr0 rs0 null_tbl (PDict []) = Ok data
      /\ gb_names (PList [PStr "region"]) = Ok names
      /\ group_cols data names = Ok gc
      /\ size_frame data gc = Ok counts
      /\ (forall r, In r (map snd (trows counts)) ->
            exists rest, In (r ++ rest) (map snd (trows null_out)))
      /\ (forall l cs, In (l, cs) (trows data) ->
            exists k n, In (k ++ [CInt n]) (map snd (trows counts))
              /\ key_eqb (row_key (map (fun '(_, (i, _)) => i) gc) cs) k = true).
Proof.
  split; [vm_compute; reflexivity|].
  apply (aggregate_star_count_keeps_every_group fr0 rs0 ac0 ad0 null_tbl
           (PList [PStr "region"]) count_sum_ops (PDict []) null_out).
  - reflexivity.
  - reflexivity.
  - vm_compute. reflexivity.
Defined.

Lemma all_ok_forall2 {A B} (f : A -> result B) (l : list A) (xs : list B) :
  all_ok (map f l) = Ok xs -> Forall2 (fun a x => f a = Ok x) l xs.
Proof.
  revert xs. induction l as [|a l IH]; intros xs H; simpl in H.
  - injection H as <-. constructor.
  - destruct (f a) as [b|e] eqn:Ef; [|discriminate].
    destruct (all_ok (map f l)) as [rest|e] eqn:Er; [|discriminate].
    simpl in H. injection H as <-. constructor; [exact Ef | apply IH; reflexivity].
Qed.

Lemma forall2_map_r {A B C} (R1 : A -> B -> Prop) (R2 : A -> C -> Prop) (h : B -> C) l xs :
  Forall2 R1 l xs -> (forall a x, In x xs -> R1 a x -> R2 a (h x)) -> Forall2 R2 l (map h xs).
Proof.
  intros H Himp. induction H; simpl; constructor.
  - apply Himp; [left; reflexivity | assumption].
  - apply IHForall2. intros a x' Hin. apply Himp. right; exact Hin.
Qed.

Lemma in_nonnull a xs : In (Some a) xs -> In a (nonnull xs).
Proof.
  induction xs as [|[b|] xs IH]; simpl; intros H; [destruct H| |].
  - destruct H as [H | H]; [injection H as ->; left; reflexivity | right; apply IH; exact H].
  - destruct H as [H | H]; [discriminate | apply IH; exact H].
Qed.

Lemma filter_combine_forall2 {A} (P : A -> bool) (rows : list A) (bs : list bool) :
  Forall2 (fun r b => b = P r) rows bs ->
  map snd (List.filter (fun '(b, _) => b) (combine bs rows)) = List.filter P rows.
Proof.
  intros H. induction H as [|r b rows bs Hb _ IH]; [reflexivity|].
  simpl. subst b. destruct (P r); simpl; [f_equal|]; exact IH.
Qed.

Lemma map_fst_combine_len {A B} (l1 : list A) (l2 : list B) :
  length l1 = length l2 -> map fst (combine l1 l2) = l1.
Proof.
  revert l2; induction l1 as [|a l1 IH]; intros [|b l2] H; simpl in *; try discriminate; auto.
  f_equal. apply IH. lia.
Qed.

Lemma map_snd_combine_len {A B} (l1 : list A) (l2 : list B) :
  length l1 = length l2 -> map snd (combine l1 l2) = l2.
Proof.
  revert l2; induction l1 as [|a l1 IH]; intros [|b l2] H; simpl in *; try discriminate; auto.
  f_equal. apply IH. lia.
Qed.

Lemma labels_eqb_refl l : labels_eqb l l = true.
Proof. induction l as [|a l IH]; simpl; [reflexivity|]. rewrite Nat.eqb_refl. exact IH. Qed.

Lemma nonnull_col_values (rows : list (nat * list cell)) i xs :
  Forall2 (fun '(_, cs) x => cell_float (nth i cs CNone) = Ok x) rows xs ->
  nonnull xs = col_values (mkTable [] rows) i.
Proof.
  unfold col_values; cbn [trows].
  intros H. induction H as [|[l cs] x rows xs Hx _ IH]; [reflexivity|].
  simpl. rewrite Hx. destruct x; simpl; [f_equal|]; exact IH.
Qed.

Lemma series_mean_pop xs :
  nonnull xs <> [] -> series_mean xs = Some (pop_mean (nonnull xs)).
Proof.
  intros Hne. unfold series_mean, pop_mean.
  destruct (length (nonnull xs)) eqn:E.
  - apply length_zero_iff_nil in E. contradiction.
  - reflexivity.
Qed.

Lemma series_std_pop xs :
  nonnull xs <> [] -> series_std 0 xs = Some (pop_std (nonnull xs)).
Proof.
  intros Hne. unfold series_std. rewrite series_mean_pop by exact Hne.
  destruct (Nat.leb (length (nonnull xs)) 0) eqn:E.
  - apply Nat.leb_le in E. destruct (nonnull xs); [contradiction | simpl in E; lia].
  - unfold pop_std. rewrite Nat.sub_0_r.
    rewrite (map_ext (fun x => ((x - pop_mean (nonnull xs)) * (x - pop_mean (nonnull xs)))%R)
                     (fun x => ((x - pop_mean (nonnull xs)) ^ 2)%R)) by (intros x; ring).
    reflexivity.
Qed.

Lemma zscore_outliers_rows df col i dt thr tq t' :
  col_index col df = Some (i, dt) -> fval_x thr = XFin tq ->
  zscore_outliers df col thr = Ok t' ->
  tcols t' = tcols df
  /\ trows t' = List.filter (fun '(_, cs) => spec_selected (Q2R' tq) (col_values df i)
                                                          (nth i cs CNone)) (trows df).
Proof.
  intros Hc Ht H. unfold zscore_outliers in H. rewrite Hc in H.
  destruct (all_ok _) as [xs|e] eqn:Ea; [|discriminate]. cbn [bind] in H.
  injection H as <-.
  unfold column in Ea. rewrite map_map in Ea.
  apply all_ok_forall2 in Ea.
  assert (H2 : Forall2 (fun '(_, cs) x => cell_float (nth i cs CNone) = Ok x) (trows df) xs).
  { eapply Forall2_impl; [exact Ea|]. intros [l cs] x Hx. exact Hx. }
  assert (Hlen : length (trows df) = length xs) by (eapply Forall2_length; exact H2).
  assert (Hv : nonnull xs = col_values df i).
  { rewrite (nonnull_col_values _ _ _ H2). reflexivity. }
  set (bs := map (z_selected thr) (zscores xs)).
  assert (Hbs : length bs = length xs) by (unfold bs, zscores; rewrite !length_map; reflexivity).
  unfold mask_rows. cbn [tcols trows].
  rewrite map_fst_combine_len by (unfold column; rewrite !length_map; lia).
  unfold column. rewrite map_map.
  replace (map (fun x => fst (let '(l, cs) := x in (l, nth i cs CNone))) (trows df))
    with (map fst (trows df)) by (apply map_ext; intros [l cs]; reflexivity).
  rewrite labels_eqb_refl. split; [reflexivity|]. cbn [trows].
  rewrite map_snd_combine_len by (rewrite length_map; lia).
  apply filter_combine_forall2.
  unfold bs, zscores. rewrite map_map.
  eapply forall2_map_r; [exact H2|].
  intros [l cs] x Hin Hx. cbn beta iota in Hx. unfold spec_selected. rewrite Hx.
  destruct x as [a|]; [|reflexivity].
  assert (Hne : nonnull xs <> []).
  { intros E. apply in_nonnull in Hin. rewrite E in Hin. destruct Hin. }
  rewrite series_mean_pop, series_std_pop by exact Hne. rewrite Hv.
  unfold z_selected. rewrite Ht. reflexivity.
Qed.

Lemma sumR_const v c : (forall y, In y v -> y = c) -> sumR v = (INR (length v) * c)%R.
Proof.
  induction v as [|y v IH]; intros H; unfold sumR in *; cbn [fold_right length]; [simpl; ring|].
  rewrite (H y (or_introl eq_refl)), IH by (intros; apply H; right; assumption).
  rewrite S_INR. ring.
Qed.

Lemma pop_mean_const v c :
  v <> [] -> (forall y, In y v -> y = c) -> pop_mean v = c.
Proof.
  intros Hne H. unfold pop_mean. rewrite (sumR_const v c H).
  assert (Hn : INR (length v) <> 0%R).
  { apply not_0_INR. destruct v; [contradiction | discriminate]. }
  field. exact Hn.
Qed.

Lemma pop_std_const v c :
  v <> [] -> (forall y, In y v -> y = c) -> pop_std v = 0%R.
Proof.
  intros Hne H. unfold pop_std. rewrite (pop_mean_const v c Hne H).
  rewrite (sumR_const _ 0%R).
  - rewrite Rmult_0_r. unfold Rdiv. rewrite Rmult_0_l. apply sqrt_0.
  - intros y Hy. apply in_map_iff in Hy as [x [<- Hx]]. rewrite (H x Hx). ring.
Qed.

Lemma filter_all_false {A} (P : A -> bool) l :
  (forall x, In x l -> P x = false) -> List.filter P l = [].
Proof.
  induction l as [|x l IH]; intros H; simpl; [reflexivity|].
  rewrite (H x (or_introl eq_refl)). apply IH. intros y Hy. apply H. right; exact Hy.
Qed.

Lemma zscore_outliers_constant df col i dt thr tq c t' :
  col_index col df = Some (i, dt) -> fval_x thr = XFin tq -> (0 < Q2R' tq)%R ->
  (forall l cs, In (l, cs) (trows df) -> cell_float (nth i cs CNone) = Ok (Some c)) ->
  zscore_outliers df col thr = Ok t' -> trows t' = [].
Proof.
  intros Hc Ht Hpos Hall H.
  destruct (zscore_outliers_rows df col i dt thr tq t' Hc Ht H) as [_ ->].
  apply filter_all_false. intros [l cs] Hin.
  assert (Hv : forall y, In y (col_values df i) -> y = c).
  { intros y Hy. unfold col_values in Hy. apply in_flat_map in Hy as [[l' cs'] [Hin' Hy]].
    rewrite (Hall l' cs' Hin') in Hy. destruct Hy as [<- | []]. reflexivity. }
  assert (Hne : col_values df i <> []).
  { intros E. assert (Hc' : In c (col_values df i)).
    { unfold col_values. apply in_flat_map. exists (l, cs). split; [exact Hin|].
      rewrite (Hall l cs Hin). left; reflexivity. }
    rewrite E in Hc'. destruct Hc'. }
  unfold spec_selected. rewrite (Hall l cs Hin).
  rewrite (pop_mean_const _ c Hne Hv), (pop_std_const _ c Hne Hv).
  replace ((c - c) / (0 + eps))%R with 0%R by (unfold Rdiv; ring).
  rewrite Rabs_R0. destruct (Rle_dec (Q2R' tq) 0); [lra | reflexivity].
Qed.

(** C7: [zscore_outliers] selects exactly the rows whose value [x] in the
    column is non-null with [|x - mean| / (std + 1e-9) >= t], where mean and
    std are the population mean and the population standard deviation
    (denominator N) of the non-null values, and the threshold comparison
    is inclusive; on a constant column and a positive threshold it
    returns no row, e.g. the column [5,5,5,5] with threshold 3.0. *)
Theorem zscore_outliers_population_std :
  (forall df col i dt thr tq t',
     col_index col df = Some (i, dt) -> fval_x thr = XFin tq ->
     zscore_outliers df col thr = Ok t' ->
     tcols t' = tcols df
     /\ trows t' = List.filter (fun '(_, cs) => spec_selected (Q2R' tq) (col_values df i)
                                                             (nth i cs CNone)) (trows df))
  /\ (forall df col i dt thr tq c t',
     col_index col df = Some (i, dt) -> fval_x thr = XFin tq -> (0 < Q2R' tq)%R ->
     (forall l cs, In (l, cs) (trows df) -> cell_float (nth i cs CNone) = Ok (Some c)) ->
     zscore_outliers df col thr = Ok t' -> trows t' = [])
  /\ zscore_outliers five_tbl "x" (FDec false 3 0) = Ok (mkTable [("x", DInt)] []).
Proof.
  split; [|split].
  - apply zscore_outliers_rows.
  - apply zscore_outliers_constant.
  - assert (E : exists t', zscore_outliers five_tbl "x" (FDec false 3 0) = Ok t')
      by (eexists; reflexivity).
    destruct E as [[cs rows] E]. rewrite E.
    assert (Hcols : cs = [("x", DInt)]).
    { destruct (zscore_outliers_rows five_tbl "x" 0 DInt (FDec false 3 0) 3 _
                  eq_refl eq_refl E) as [H _]. exact H. }
    assert (Hrows : rows = []).
    { apply (zscore_outliers_constant five_tbl "x" 0 DInt (FDec false 3 0) 3 5%R
               (mkTable cs rows) eq_refl eq_refl).
      - unfold Q2R'. simpl. lra.
      - intros l cs' Hin. simpl in Hin.
        repeat (destruct Hin as [Hin | Hin]; [injection Hin as <- <-; reflexivity|]).
        destruct Hin.
      - exact E. }
    subst. reflexivity.
Qed.

Lemma zscore_outliers_population_std_witness :
  (exists t', zscore_outliers five_tbl "x" (FDec false 3 0) = Ok t'
     /\ tcols t' = tcols five_tbl
     /\ trows t' = List.filter (fun '(_, cs) => spec_selected (Q2R' 3) (col_values five_tbl 0)
                                                             (nth 0 cs CNone)) (trows five_tbl))
  /\ (exists t', zscore_outliers five_tbl "x" (FDec false 3 0) = Ok t' /\ trows t' = []).
Proof.
  destruct zscore_outliers_population_std as [H1 [H2 _]].
  split.
  - eexists. split; [reflexivity|].
    apply (H1 five_tbl "x" 0 DInt (FDec false 3 0) 3%Q); reflexivity.
  - eexists. split; [reflexivity|].
    apply (H2 five_tbl "x" 0 DInt (FDec false 3 0) 3%Q 5%R).
    + reflexivity.
    + reflexivity.
    + unfold Q2R'. simpl. lra.
    + intros l cs Hin. simpl in Hin.
      repeat (destruct Hin as [Hin | Hin]; [injection Hin as <- <-; reflexivity|]).
      destruct Hin.
    + reflexivity.
Defined.

(* ------------------------------------------------------------------ *)
(** * Further properties of the filter engine, the analysis helpers,
    the planner and the executor *)

Lemma narrows_refl d : narrows d d.
Proof. split; reflexivity. Qed.

Lemma narrows_trans a b c : narrows a b -> narrows b c -> narrows a c.
Proof. intros [H1 H2] [H3 H4]. split; [congruence | etrans; eassumption]. Qed.

Lemma combine_filter_sublist {A} (bs : list bool) (l : list A) :
  map snd (List.filter (fun '(b, _) => b) (combine bs l)) `sublist_of` l.
Proof.
  revert bs; induction l as [|x l IH]; intros [|b bs]; simpl;
    try apply sublist_nil_l.
  destruct b; simpl; constructor; apply IH.
Qed.

Lemma list_filter_sublist {A} (f : A -> bool) (l : list A) : List.filter f l `sublist_of` l.
Proof. induction l as [|x l IH]; simpl; [constructor|]. destruct (f x); constructor; exact IH. Qed.

Lemma mask_rows_narrows m d d' : narrows d d' -> narrows d (mask_rows m d').
Proof.
  intros Hd. eapply narrows_trans; [exact Hd|].
  unfold mask_rows. destruct (labels_eqb _ _); split; simpl; auto.
  - apply combine_filter_sublist.
  - apply list_filter_sublist.
Qed.

Lemma filter_dict_narrows fr rs dt s d data r :
  filter_dict fr rs dt s d data = Ok r -> narrows data r.
Proof.
  unfold filter_dict; cbv zeta. intros H.
  take_apart;
    repeat match goal with |- context [match ?x with _ => _ end] => destruct x end;
    repeat apply mask_rows_narrows; apply narrows_refl.
Qed.

Lemma filter_step_narrows fr rs d kv r :
  filter_step fr rs d kv = Ok r -> narrows d r.
Proof.
  destruct kv as [k v]; unfold filter_step. intros H.
  destruct (col_index k d) as [[i dt]|]; [|injection H as <-; apply narrows_refl].
  destruct v; try (take_apart; apply mask_rows_narrows, narrows_refl; fail).
  eapply filter_dict_narrows; eassumption.
Qed.

Lemma run_steps_narrows fr rs items d r :
  run_steps fr rs items d = Ok r -> narrows d r.
Proof.
  unfold run_steps. revert d. induction items as [|kv items IH]; simpl; intros d H.
  - injection H as <-. apply narrows_refl.
  - destruct (filter_step fr rs d kv) as [d1|e] eqn:E.
    + eapply narrows_trans; [eapply filter_step_narrows; eassumption|]. apply IH; exact H.
    + rewrite (fold_err (fun kv d => filter_step fr rs d kv)) in H. discriminate.
Qed.

Lemma apply_filters_narrows fr rs df filters t' :
  apply_filters fr rs df filters = Ok t' -> narrows df t'.
Proof.
  unfold apply_filters. destruct (negb (py_truthy filters)).
  - intros H; injection H as <-; apply narrows_refl.
  - destruct filters; try discriminate. apply run_steps_narrows.
Qed.

(** X1.  [apply_filters] only removes rows: on success the result has the
    columns of the input, and its rows are a sublist of the input rows
    (same order, labels kept). *)
Theorem apply_filters_rows_sublist fr rs df filters t' :
  apply_filters fr rs df filters = Ok t' ->
  tcols t' = tcols df /\ trows t' `sublist_of` trows df.
Proof. apply apply_filters_narrows. Qed.


Lemma apply_filters_dict fr rs df items :
  apply_filters fr rs df (PDict items) = run_steps fr rs items df.
Proof. destruct items; reflexivity. Qed.


Lemma mask_positional (f : nat * list cell -> bool) t :
  mask_rows (map (fun r => (fst r, f r)) (trows t)) t = mkTable (tcols t) (List.filter f (trows t)).
Proof.
  unfold mask_rows. rewrite map_map. cbn [fst]. rewrite labels_eqb_refl. f_equal.
  induction (trows t) as [|r rows IH]; simpl; [reflexivity|].
  destruct (f r); simpl; [f_equal|]; exact IH.
Qed.

Lemma cell_eq_null c v : is_null c = true -> cell_eq c v = false.
Proof. destruct c; try discriminate; destruct v; reflexivity. Qed.

(** X3.  An entry on an existing column whose value is neither a list nor a
    dict is an equality filter [data[s == v]]: it keeps exactly the rows
    whose cell equals the value, and none of them has a null cell in that
    column. *)
Theorem apply_filters_equality_filter fr rs df k v i dt :
  col_index k df = Some (i, dt) ->
  (forall l, v <> PList l) -> (forall d, v <> PDict d) ->
  apply_filters fr rs df (PDict [(k, v)])
  = Ok (mkTable (tcols df) (List.filter (fun '(_, cs) => cell_eq (nth i cs CNone) v) (trows df)))
  /\ forall l cs, In (l, cs) (List.filter (fun '(_, cs) => cell_eq (nth i cs CNone) v) (trows df)) ->
       is_null (nth i cs CNone) = false.
Proof.
  intros Hc Hl Hd. split.
  - rewrite apply_filters_dict. unfold run_steps. cbn [fold_left bind].
    unfold filter_step. rewrite Hc.
    assert (Heq : eq_col (column df i) v
                  = Ok (map (fun r => (fst r, (fun '(_, cs) => cell_eq (nth i cs CNone) v) r)) (trows df))).
    { destruct v; try (exfalso; eapply Hl; reflexivity); try (exfalso; eapply Hd; reflexivity);
      unfold eq_col, column; rewrite map_map; f_equal; apply map_ext; intros [l cs]; reflexivity. }
    destruct v; try (exfalso; eapply Hd; reflexivity);
      rewrite Heq; cbn [bind]; rewrite mask_positional; reflexivity.
  - intros l cs Hin. apply List.filter_In in Hin as [_ Hin].
    destruct (is_null (nth i cs CNone)) eqn:E; [|reflexivity].
    rewrite cell_eq_null in Hin by exact E. discriminate.
Qed.

Lemma filter_dict_inert fr rs dt s d data :
  existsb (fun p => Dict.mem p d)
    ["between"; "in"; "contains"; "startswith"; "endswith"; "gt"; "gte"; "lt"; "lte"] = false ->
  filter_dict fr rs dt s d data = Ok data.
Proof.
  unfold Dict.mem. cbn [existsb].
  intros H. repeat (apply orb_false_elim in H as [? H]).
  unfold filter_dict.
  repeat match goal with
         | E : (match Dict.get ?k d with Some _ => true | None => false end) = false |- _ =>
             destruct (Dict.get k d); [discriminate|]; clear E
         end.
  reflexivity.
Qed.

Lemma run_steps_inert fr rs items t :
  Heap.rebinds t items = false -> run_steps fr rs items t = Ok t.
Proof.
  unfold Heap.rebinds, run_steps. induction items as [|[k v] items IH]; simpl; [reflexivity|].
  intros H. apply orb_false_elim in H as [H1 H2].
  unfold filter_step. destruct (col_index k t) as [[i dt]|]; [|apply IH; exact H2].
  destruct v; try discriminate.
  rewrite filter_dict_inert by exact H1. apply IH; exact H2.
Qed.

(** X4.  [apply_filters] never returns or mutates its input object: the
    returned address was free before the call, every object that existed
    before keeps its frame, and the returned object holds the filtered
    frame of the input object. *)
Theorem apply_filters_h_new_object fr rs (h : Heap.heap) df filters h' l :
  Heap.apply_filters_h fr rs h df filters = Ok (h', l) ->
  h !! l = None
  /\ (forall a t, h !! a = Some t -> h' !! a = Some t)
  /\ exists t t', h !! df = Some t /\ apply_filters fr rs t filters = Ok t' /\ h' !! l = Some t'.
Proof.
  unfold Heap.apply_filters_h, Heap.alloc.
  destruct (h !! df) as [t|] eqn:Hdf; [|discriminate].
  assert (Hn : h !! fresh (dom h) = None) by (apply not_elem_of_dom, is_fresh).
  assert (Hsub : forall a u, h !! a = Some u -> <[fresh (dom h) := t]> h !! a = Some u).
  { intros a u Ha. rewrite lookup_insert_ne; [exact Ha|]. intros E; subst; congruence. }
  destruct (negb (py_truthy filters)) eqn:Ef.
  - intros H. injection H as <- <-. split; [exact Hn|]. split; [exact Hsub|].
    exists t, t. split; [reflexivity|]. split; [|apply lookup_insert_eq].
    unfold apply_filters. rewrite Ef. reflexivity.
  - destruct filters as [| | | | | |items]; try discriminate.
    destruct (run_steps fr rs items t) as [r|e] eqn:Er; cbn [bind]; [|discriminate].
    assert (Ha : apply_filters fr rs t (PDict items) = Ok r)
      by (unfold apply_filters; rewrite Ef; exact Er).
    destruct (Heap.rebinds t items) eqn:Eb.
    + intros H. injection H as <- <-.
      set (h1 := <[fresh (dom h) := t]> h).
      assert (Hn1 : h1 !! fresh (dom h1) = None) by (apply not_elem_of_dom, is_fresh).
      assert (Hne : h !! fresh (dom h1) = None).
      { destruct (h !! fresh (dom h1)) as [u|] eqn:E; [|reflexivity].
        apply Hsub in E. fold h1 in E. congruence. }
      split; [exact Hne|]. split.
      * intros a u Hu. rewrite lookup_insert_ne; [apply Hsub; exact Hu|].
        intros E; subst; congruence.
      * exists t, r. split; [reflexivity|]. split; [exact Ha | apply lookup_insert_eq].
    + intros H. injection H as <- <-.
      rewrite run_steps_inert in Er by exact Eb. injection Er as <-.
      split; [exact Hn|]. split; [exact Hsub|].
      exists t, t. split; [reflexivity|]. split; [exact Ha | apply lookup_insert_eq].
Qed.

(* key equality is a partial equivalence *)
Lemma Qeq_bool_sym' x y : Qeq_bool x y = Qeq_bool y x.
Proof.
  destruct (Qeq_bool x y) eqn:E1, (Qeq_bool y x) eqn:E2; try reflexivity.
  - apply Qeq_bool_iff in E1. rewrite <- E2. symmetry. apply Qeq_bool_iff. symmetry. exact E1.
  - apply Qeq_bool_iff in E2. rewrite <- E1. apply Qeq_bool_iff. symmetry. exact E2.
Qed.

Lemma key_cell_eqb_sym a b : key_cell_eqb a b = key_cell_eqb b a.
Proof. destruct a, b; simpl; try reflexivity; try apply Qeq_bool_sym'; apply String.eqb_sym. Qed.

Lemma key_cell_eqb_trans a b c :
  key_cell_eqb a b = true -> key_cell_eqb b c = true -> key_cell_eqb a c = true.
Proof.
  destruct a, b; simpl; try discriminate; destruct c; simpl; try discriminate;
    intros H1 H2;
    try (apply Qeq_bool_iff in H1; apply Qeq_bool_iff in H2; apply Qeq_bool_iff;
         eapply Qeq_trans; eassumption);
    try (apply String.eqb_eq in H1; apply String.eqb_eq in H2; apply String.eqb_eq; congruence);
    reflexivity.
Qed.

Lemma key_eqb_sym a b : key_eqb a b = key_eqb b a.
Proof.
  revert b; induction a as [|x a IH]; intros [|y b]; simpl; try reflexivity.
  rewrite key_cell_eqb_sym, IH. reflexivity.
Qed.

Lemma key_eqb_trans a b c : key_eqb a b = true -> key_eqb b c = true -> key_eqb a c = true.
Proof.
  revert b c; induction a as [|x a IH]; intros [|y b] [|z c]; simpl; try discriminate; auto.
  intros H1 H2. apply andb_true_iff in H1 as [H1 H1'], H2 as [H2 H2'].
  rewrite (key_cell_eqb_trans x y z H1 H2). simpl. eapply IH; eassumption.
Qed.

Lemma dedup_keys_sublist l : dedup_keys l `sublist_of` l.
Proof.
  induction l as [|k r IH]; simpl; [constructor|].
  destruct (existsb _ _); constructor; exact IH.
Qed.

Lemma dedup_keys_in y l : In y (dedup_keys l) -> In y l.
Proof.
  intros H. apply list_elem_of_In. apply list_elem_of_In in H.
  eapply elem_of_sublist; [exact H|]. apply dedup_keys_sublist.
Qed.

Lemma existsb_dedup a l :
  wf_keys l -> existsb (key_eqb a) (dedup_keys l) = existsb (key_eqb a) l.
Proof.
  intros Hw. apply Bool.eq_iff_eq_true. rewrite !existsb_exists. split.
  - intros [y [Hy Ha]]. exists y. split; [apply dedup_keys_in; exact Hy | exact Ha].
  - intros [y [Hy Ha]]. destruct (dedup_keys_covers l y Hw Hy) as [y' [Hy' Hyy]].
    exists y'. split; [exact Hy' | eapply key_eqb_trans; eassumption].
Qed.

Lemma dedup_keys_apart l :
  ForallOrdPairs (fun x y => key_eqb x y = false) (dedup_keys l).
Proof.
  induction l as [|k r IH]; simpl; [constructor|].
  destruct (existsb (key_eqb k) (dedup_keys r)) eqn:E; [exact IH|].
  constructor; [|exact IH].
  apply List.Forall_forall. intros y Hy.
  destruct (key_eqb k y) eqn:Ek; [|reflexivity].
  exfalso. assert (existsb (key_eqb k) (dedup_keys r) = true) by (apply existsb_exists; eauto).
  congruence.
Qed.

Lemma list_sum_map_add {A} (f g : A -> nat) l :
  list_sum (map (fun x => f x + g x) l) = list_sum (map f l) + list_sum (map g l).
Proof. induction l as [|x l IH]; simpl; [reflexivity|]. rewrite IH. lia. Qed.

Lemma list_sum_cons' x l : list_sum (x :: l) = x + list_sum l.
Proof. reflexivity. Qed.

Lemma count_zero k (D : list (list cell)) :
  existsb (key_eqb k) D = false -> list_sum (map (fun d => if key_eqb k d then 1 else 0) D) = 0.
Proof.
  induction D as [|d D IH]; simpl; [reflexivity|].
  intros H. apply orb_false_elim in H as [H1 H2]. rewrite H1, IH by exact H2. reflexivity.
Qed.

Lemma count_one k (D : list (list cell)) :
  ForallOrdPairs (fun x y => key_eqb x y = false) D -> existsb (key_eqb k) D = true ->
  list_sum (map (fun d => if key_eqb k d then 1 else 0) D) = 1.
Proof.
  induction 1 as [|d D Hd HD IH]; simpl; [discriminate|].
  destruct (key_eqb k d) eqn:Ek; simpl.
  - intros _. rewrite count_zero; [reflexivity|].
    apply not_true_iff_false. intros Hex. apply existsb_exists in Hex as [y [Hy Hky]].
    rewrite List.Forall_forall in Hd. specialize (Hd y Hy).
    rewrite key_eqb_sym in Ek. rewrite (key_eqb_trans d k y Ek Hky) in Hd. discriminate.
  - exact IH.
Qed.

Lemma dedup_keys_counts l :
  wf_keys l ->
  list_sum (map (fun d => length (List.filter (fun x => key_eqb x d) l)) (dedup_keys l))
  = length l.
Proof.
  induction l as [|k r IH]; intros Hw; [reflexivity|].
  inversion Hw as [|? ? Hk Hr]; subst.
  assert (Hsplit : forall D, list_sum (map (fun d => length (List.filter (fun x => key_eqb x d) (k :: r))) D)
                   = list_sum (map (fun d => if key_eqb k d then 1 else 0) D)
                     + list_sum (map (fun d => length (List.filter (fun x => key_eqb x d) r)) D)).
  { intros D. rewrite <- list_sum_map_add. f_equal. apply map_ext. intros d. simpl.
    destruct (key_eqb k d); reflexivity. }
  simpl dedup_keys. destruct (existsb (key_eqb k) (dedup_keys r)) eqn:E.
  - rewrite Hsplit. rewrite (count_one k (dedup_keys r) (dedup_keys_apart r) E). rewrite IH by exact Hr. simpl. lia.
  - rewrite Hsplit, !map_cons. cbn [list_sum]. rewrite !list_sum_cons', (count_zero k _ E), IH by (exact Hr || exact E).
    rewrite Hk.
    assert (Hno : forall x, In x r -> key_eqb x k = false).
    { intros x Hx. destruct (key_eqb x k) eqn:Exk; [|reflexivity]. exfalso.
      destruct (dedup_keys_covers r x Hr Hx) as [d [Hd Hxd]].
      assert (Hex : existsb (key_eqb k) (dedup_keys r) = true).
      { apply existsb_exists. exists d. split; [exact Hd|].
        rewrite key_eqb_sym in Exk. eapply key_eqb_trans; eassumption. }
      congruence. }
    rewrite (filter_all_false _ r Hno). simpl. lia.
Qed.

Lemma insert_key_perm k l : Permutation (insert_key k l) (k :: l).
Proof.
  induction l as [|x l IH]; simpl; [reflexivity|].
  destruct (key_leb k x); [reflexivity|].
  etrans; [apply perm_skip, IH|]. apply perm_swap.
Qed.

Lemma fold_insert_key_perm l : Permutation (fold_right insert_key [] l) l.
Proof.
  induction l as [|x l IH]; simpl; [reflexivity|].
  etrans; [apply insert_key_perm|]. apply perm_skip, IH.
Qed.

Lemma list_sum_perm l l' : Permutation l l' -> list_sum l = list_sum l'.
Proof. induction 1; simpl; lia. Qed.

Lemma length_filter_map {A B} (f : B -> bool) (g : A -> B) l :
  length (List.filter f (map g l)) = length (List.filter (fun x => f (g x)) l).
Proof. induction l as [|x l IH]; simpl; [reflexivity|]. destruct (f (g x)); simpl; lia. Qed.

Lemma wf_row_keys idx (rows : list (nat * list cell)) :
  wf_keys (map (fun '(_, cs) => row_key idx cs) rows).
Proof.
  apply List.Forall_forall. intros x Hx. apply in_map_iff in Hx as [[l cs] [<- _]].
  apply row_key_refl.
Qed.

Lemma group_sizes_sum idx t :
  list_sum (map (fun k => length (group_rows idx t k)) (group_keys idx t)) = length (trows t).
Proof.
  unfold group_keys.
  rewrite (list_sum_perm _ _ (Permutation_map _ (fold_insert_key_perm _))).
  set (M := map (fun '(_, cs) => row_key idx cs) (trows t)).
  transitivity (length M); [|apply length_map].
  rewrite <- (dedup_keys_counts M (wf_row_keys idx (trows t))).
  f_equal. apply map_ext. intros k. unfold group_rows, M.
  rewrite length_map, length_filter_map. f_equal. apply List.filter_ext. intros [l cs]. reflexivity.
Qed.

Lemma map_pair_snd {B} (h : list cell -> B) (l : list (nat * list cell)) :
  map (fun '(_, cs) => h cs) l = map h (map snd l).
Proof. rewrite map_map. apply map_ext. intros [? ?]. reflexivity. Qed.

Lemma sum_Z_of_nat {A} (f : A -> nat) l :
  fold_right Z.add 0%Z (map (fun x => Z.of_nat (f x)) l) = Z.of_nat (list_sum (map f l)).
Proof. induction l as [|x l IH]; simpl; [reflexivity|]. rewrite IH. lia. Qed.

Lemma size_frame_counts df gc t :
  size_frame df gc = Ok t ->
  fold_right Z.add 0%Z (row_counts t) = Z.of_nat (length (trows df)).
Proof.
  unfold size_frame. destruct (existsb _ gc); [discriminate|].
  intros H. injection H as <-. unfold row_counts. cbn [trows].
  rewrite map_pair_snd, map_snd_number_rows, map_map.
  rewrite (map_ext _ (fun k => Z.of_nat (length (group_rows (map (fun '(_, (i, _)) => i) gc) df k))))
    by (intros k; rewrite last_last; reflexivity).
  rewrite sum_Z_of_nat, group_sizes_sum. reflexivity.
Qed.

(** X5.  The [row_count] column of [group_count] sums to the number of input
    rows: every row falls in exactly one group, rows with null keys
    included ([dropna=False]). *)
Theorem group_count_counts_sum df group_by t :
  group_count df group_by = Ok t ->
  fold_right Z.add 0%Z (row_counts t) = Z.of_nat (length (trows df)).
Proof.
  unfold group_count. destruct (py_iter group_by) as [gs|e]; cbn [bind]; [|discriminate].
  destruct (List.filter _ gs) as [|g gs'].
  - intros H. injection H as <-. simpl. lia.
  - destruct (group_cols df _) as [gc|e]; cbn [bind]; [|discriminate].
    apply size_frame_counts.
Qed.

Lemma insert_key_in_inv y k l : In y (insert_key k l) -> y = k \/ In y l.
Proof.
  intros H. apply (Permutation_in _ (insert_key_perm k l)) in H.
  destruct H as [H | H]; [left; symmetry; exact H | right; exact H].
Qed.

Lemma insert_key_apart k l :
  Forall (fun y => key_eqb k y = false) l ->
  ForallOrdPairs (fun a b => key_eqb a b = false) l ->
  ForallOrdPairs (fun a b => key_eqb a b = false) (insert_key k l).
Proof.
  induction l as [|x l IH]; simpl; intros Hk Hl.
  - constructor; constructor.
  - inversion Hk as [|? ? Hkx Hkl]; subst. inversion Hl as [|? ? Hx Hl']; subst.
    destruct (key_leb k x); [constructor; assumption|].
    constructor; [|apply IH; assumption].
    apply List.Forall_forall. intros y Hy. apply insert_key_in_inv in Hy as [-> | Hy].
    + rewrite key_eqb_sym. exact Hkx.
    + rewrite List.Forall_forall in Hx. apply Hx, Hy.
Qed.

Lemma group_keys_apart idx t :
  ForallOrdPairs (fun a b => key_eqb a b = false) (group_keys idx t).
Proof.
  unfold group_keys. generalize (dedup_keys_apart (map (fun '(_, cs) => row_key idx cs) (trows t))).
  generalize (dedup_keys (map (fun '(_, cs) => row_key idx cs) (trows t))) as D.
  induction D as [|d D IH]; simpl; intros H; [constructor|].
  inversion H as [|? ? Hd HD]; subst.
  apply insert_key_apart; [|apply IH, HD].
  apply List.Forall_forall. intros y Hy.
  apply (Permutation_in _ (fold_insert_key_perm D)) in Hy.
  rewrite List.Forall_forall in Hd. apply Hd, Hy.
Qed.

Lemma group_keys_nonempty idx t k :
  In k (group_keys idx t) -> 1 <= length (group_rows idx t k).
Proof.
  unfold group_keys. intros Hk.
  apply (Permutation_in _ (fold_insert_key_perm _)) in Hk.
  apply dedup_keys_in, in_map_iff in Hk as [[l cs] [<- Hin]].
  unfold group_rows. rewrite length_map.
  assert (Hin' : In (l, cs) (List.filter (fun '(_, cs') => key_eqb (row_key idx cs') (row_key idx cs))
                                         (trows t)))
    by (apply List.filter_In; split; [exact Hin | apply row_key_refl]).
  destruct (List.filter _ _); [destruct Hin' | simpl; lia].
Qed.

(** X6.  [group_count] returns either the single total row (no [group_by]
    name is a column) or one row per group: the group keys are pairwise
    distinct and every count is at least 1. *)
Theorem group_count_one_row_per_group df group_by t :
  group_count df group_by = Ok t ->
  t = mkTable [("row_count", DInt)] [(0, [CInt (Z.of_nat (length (trows df)))])]
  \/ (ForallOrdPairs (fun a b => key_eqb a b = false) (map (fun '(_, cs) => removelast cs) (trows t))
      /\ Forall (fun z => (1 <= z)%Z) (row_counts t)).
Proof.
  unfold group_count. destruct (py_iter group_by) as [gs|e]; cbn [bind]; [|discriminate].
  destruct (List.filter _ gs) as [|g gs'].
  - intros H. injection H as <-. left; reflexivity.
  - destruct (group_cols df _) as [gc|e]; cbn [bind]; [|discriminate].
    unfold size_frame. destruct (existsb _ gc); [discriminate|].
    intros H. injection H as <-. right. unfold row_counts. cbn [trows].
    rewrite !map_pair_snd, !map_snd_number_rows, !map_map. split.
    + rewrite (map_ext _ (fun k => k)) by (intros k; apply removelast_last).
      rewrite map_id. apply group_keys_apart.
    + apply List.Forall_forall. intros z Hz. apply in_map_iff in Hz as [k [<- Hk]].
      rewrite last_last. apply group_keys_nonempty in Hk. lia.
Qed.

Lemma wf_keys_perm l l' : Permutation l l' -> wf_keys l -> wf_keys l'.
Proof.
  unfold wf_keys. rewrite !List.Forall_forall. intros Hp H x Hx.
  apply H. eapply Permutation_in; [symmetry; exact Hp | exact Hx].
Qed.

Lemma existsb_perm {A} (f : A -> bool) l l' : Permutation l l' -> existsb f l = existsb f l'.
Proof. induction 1; simpl; try congruence. destruct (f x), (f y); reflexivity. Qed.

Lemma existsb_congr a b l :
  key_eqb a b = true -> existsb (key_eqb a) l = existsb (key_eqb b) l.
Proof.
  intros Hab. apply Bool.eq_iff_eq_true. rewrite !existsb_exists.
  split; intros [y [Hy H]]; exists y; split; auto.
  - rewrite key_eqb_sym in Hab. eapply key_eqb_trans; eassumption.
  - eapply key_eqb_trans; eassumption.
Qed.

Lemma length_dedup_cons k l :
  wf_keys l ->
  length (dedup_keys (k :: l)) = (if existsb (key_eqb k) l then 0 else 1) + length (dedup_keys l).
Proof.
  intros Hw. simpl. rewrite existsb_dedup by exact Hw.
  destruct (existsb (key_eqb k) l); reflexivity.
Qed.

Lemma length_dedup_perm l l' :
  Permutation l l' -> wf_keys l -> length (dedup_keys l) = length (dedup_keys l').
Proof.
  induction 1 as [|x l l' Hp IH|y x l|l l' l'' H1 IH1 H2 IH2]; intros Hw.
  - reflexivity.
  - inversion Hw as [|? ? Hx Hl]; subst.
    rewrite !length_dedup_cons by (exact Hl || exact (wf_keys_perm _ _ Hp Hl)).
    rewrite (existsb_perm _ _ _ Hp), IH by exact Hl. reflexivity.
  - inversion Hw as [|? ? Hx Hw']; subst. inversion Hw' as [|? ? Hy Hl]; subst.
    rewrite !length_dedup_cons
      by (exact Hl || constructor; assumption).
    simpl. rewrite (key_eqb_sym y x).
    destruct (key_eqb x y) eqn:Exy; simpl.
    + rewrite (existsb_congr x y l Exy). reflexivity.
    + destruct (existsb (key_eqb y) l), (existsb (key_eqb x) l); reflexivity.
  - rewrite IH1 by exact Hw. apply IH2. eapply wf_keys_perm; eassumption.
Qed.

Lemma wf_keys_app l1 l2 : wf_keys l1 -> wf_keys l2 -> wf_keys (l1 ++ l2).
Proof. apply Forall_app_2. Qed.

Lemma dup_scan_dedup S l :
  wf_keys l -> wf_keys S ->
  count_true (dup_scan S l) + length (dedup_keys (rev l ++ S)) = length l + length (dedup_keys S).
Proof.
  unfold count_true. revert S. induction l as [|k r IH]; intros S Hl HS; [reflexivity|].
  inversion Hl as [|? ? Hk Hr]; subst. simpl dup_scan.
  assert (HkS : wf_keys (k :: S)) by (constructor; assumption).
  specialize (IH (k :: S) Hr HkS).
  cbn [rev]. rewrite <- app_assoc. cbn [app].
  rewrite length_dedup_cons in IH by exact HS.
  destruct (existsb (key_eqb k) S); simpl; lia.
Qed.

Lemma dup_scan_count l :
  wf_keys l -> count_true (dup_scan [] l) + length (dedup_keys l) = length l.
Proof.
  intros Hw. pose proof (dup_scan_dedup [] l Hw (List.Forall_nil _)) as H.
  rewrite app_nil_r in H.
  rewrite (length_dedup_perm _ _ (Permutation_rev l) Hw). simpl in H. lia.
Qed.

Lemma col_index_from_nodup n cs :
  NoDup (map fst cs) ->
  all_ok (map (fun '(c, _) => match col_index_from n c cs with
                              | Some p => Ok (c, p)
                              | None => Err KeyError
                              end) cs)
  = Ok (combine (map fst cs) (combine (seq n (length cs)) (map snd cs))).
Proof.
  revert n; induction cs as [|[c dt] cs IH]; intros n Hnd; [reflexivity|].
  inversion Hnd as [|? ? Hc Hnd']; subst. cbn [map all_ok]. simpl col_index_from at 1.
  rewrite String.eqb_refl. cbn [bind].
  erewrite map_ext_in; [rewrite (IH (S n) Hnd'); reflexivity|].
  intros [c' dt'] Hin. simpl.
  destruct (String.eqb_spec c' c) as [->|]; [|reflexivity].
  exfalso. apply Hc, list_elem_of_In, in_map_iff. exists (c, dt'). split; [reflexivity | exact Hin].
Qed.

Lemma map_idx_combine (a : list string) (b : list nat) (c : list dtype) :
  length a = length b -> length b = length c ->
  map (fun '(_, (i, _)) => i) (combine a (combine b c)) = b.
Proof.
  revert b c; induction a as [|x a IH]; intros [|y b] [|z c] H1 H2; simpl in *;
    try discriminate; try reflexivity.
  f_equal. apply IH; lia.
Qed.

Lemma group_cols_all df :
  NoDup (map fst (tcols df)) ->
  exists gc, group_cols df (map (fun '(c, _) => PStr c) (tcols df)) = Ok gc
             /\ map (fun '(_, (i, _)) => i) gc = seq 0 (length (tcols df)).
Proof.
  intros Hnd. eexists. split.
  - unfold group_cols, col_index. rewrite map_map.
    erewrite map_ext; [apply (col_index_from_nodup 0 _ Hnd)|].
    intros [c dt]. reflexivity.
  - apply map_idx_combine; rewrite ?length_seq, ?length_map; reflexivity.
Qed.

Lemma col_index_from_in n c cs : In c (map fst cs) -> col_index_from n c cs <> None.
Proof.
  revert n; induction cs as [|[c' dt] cs IH]; intros n H; simpl in *; [destruct H|].
  destruct (String.eqb_spec c c'); [discriminate|].
  apply IH. destruct H as [H | H]; [congruence | exact H].
Qed.

Lemma filter_all_true {A} (f : A -> bool) l : (forall x, In x l -> f x = true) -> List.filter f l = l.
Proof.
  induction l as [|x l IH]; intros H; simpl; [reflexivity|].
  rewrite H by (left; reflexivity). f_equal. apply IH. intros y Hy. apply H. right; exact Hy.
Qed.

Lemma length_number_rows rows : length (number_rows rows) = length rows.
Proof. unfold number_rows. rewrite length_combine, length_seq. lia. Qed.

Lemma size_frame_length df gc t :
  size_frame df gc = Ok t ->
  length (trows t) = length (dedup_keys (map (fun '(_, cs) => row_key (map (fun '(_, (i, _)) => i) gc) cs) (trows df))).
Proof.
  unfold size_frame. destruct (existsb _ gc); [discriminate|].
  intros H. injection H as <-. cbn [trows]. rewrite length_number_rows, length_map.
  unfold group_keys. apply Permutation_length, fold_insert_key_perm.
Qed.

(** X7.  On a frame with at least one column and distinct column names,
    [duplicates_count] plus the number of groups of [group_count] over all
    the columns is the number of rows. *)
Theorem duplicates_count_plus_groups df t :
  tcols df <> [] -> NoDup (map fst (tcols df)) ->
  group_count df (PList (map (fun '(c, _) => PStr c) (tcols df))) = Ok t ->
  exists d, duplicates_count df = mkTable [("duplicate_rows", DInt)] [(0, [CInt (Z.of_nat d)])]
            /\ d + length (trows t) = length (trows df).
Proof.
  intros Hne Hnd. destruct (group_cols_all df Hnd) as [gc [Hg Hidx]].
  unfold group_count. cbn [py_iter bind].
  rewrite filter_all_true.
  2:{ intros x Hx. apply in_map_iff in Hx as [[c dt] [<- Hin]].
      unfold col_index. destruct (col_index_from 0 c (tcols df)) eqn:E; [reflexivity|].
      exfalso. eapply col_index_from_in; [|exact E].
      apply in_map_iff. exists (c, dt). split; [reflexivity | exact Hin]. }
  destruct (map (fun '(c, _) => PStr c) (tcols df)) as [|g gs] eqn:Em.
  { apply map_eq_nil in Em. contradiction. }
  rewrite Hg. cbn [bind]. intros Hs.
  apply size_frame_length in Hs. rewrite Hidx in Hs.
  set (M := map (fun '(_, cs) => row_key (seq 0 (length (tcols df))) cs) (trows df)) in Hs.
  exists (length (List.filter (fun b => b) (duplicated df))). split; [reflexivity|].
  unfold duplicated. destruct (tcols df) eqn:Ec; [contradiction|]. rewrite <- Ec.
  fold M. rewrite Hs.
  pose proof (dup_scan_count M (wf_row_keys _ _)) as Hc. unfold count_true in Hc.
  unfold M in Hc |- *. rewrite length_map in Hc. rewrite Ec in *. lia.
Qed.

Lemma wf_keys_filter f l : wf_keys l -> wf_keys (List.filter f l).
Proof.
  unfold wf_keys. rewrite !List.Forall_forall. intros H x Hx.
  apply List.filter_In in Hx as [Hx _]. apply H, Hx.
Qed.

Lemma existsb_filter_resp (P : list cell -> bool) k l :
  (forall a b, key_eqb a b = true -> P a = P b) -> P k = true ->
  existsb (key_eqb k) (List.filter P l) = existsb (key_eqb k) l.
Proof.
  intros Hr Hk. induction l as [|x l IH]; simpl; [reflexivity|].
  destruct (P x) eqn:Ex; simpl; rewrite IH; [reflexivity|].
  destruct (key_eqb k x) eqn:Ekx; [|reflexivity].
  apply Hr in Ekx. congruence.
Qed.

Lemma length_dedup_partition (P : list cell -> bool) l :
  (forall a b, key_eqb a b = true -> P a = P b) -> wf_keys l ->
  length (dedup_keys l)
  = length (dedup_keys (List.filter P l)) + length (dedup_keys (List.filter (fun x => negb (P x)) l)).
Proof.
  intros Hr. induction l as [|k r IH]; intros Hw; [reflexivity|].
  inversion Hw as [|? ? Hk Hr']; subst.
  rewrite length_dedup_cons by exact Hr'. simpl List.filter.
  destruct (P k) eqn:Ep; simpl negb; cbv iota.
  - rewrite length_dedup_cons by (apply wf_keys_filter; exact Hr').
    rewrite existsb_filter_resp by assumption. rewrite IH by exact Hr'. lia.
  - rewrite (length_dedup_cons k) by (apply wf_keys_filter; exact Hr').
    rewrite (existsb_filter_resp (fun x => negb (P x))) by
      (first [intros a b Hab; rewrite (Hr a b Hab); reflexivity | rewrite Ep; reflexivity]).
    rewrite IH by exact Hr'. lia.
Qed.

Lemma length_dedup_all_related (l : list (list cell)) z :
  Forall (fun x => key_eqb x z = true) l ->
  length (dedup_keys l) = match l with [] => 0 | _ => 1 end.
Proof.
  induction l as [|k r IH]; intros H; [reflexivity|].
  inversion H as [|? ? Hk Hr]; subst. simpl.
  destruct r as [|x r'].
  - reflexivity.
  - assert (Hd : dedup_keys (x :: r') <> []).
    { intros E. specialize (IH Hr). rewrite E in IH. discriminate. }
    destruct (dedup_keys (x :: r')) as [|d D] eqn:ED; [contradiction|].
    assert (Hdz : key_eqb d z = true).
    { assert (Hin : In d (x :: r')) by (apply dedup_keys_in; rewrite ED; left; reflexivity).
      rewrite List.Forall_forall in Hr. apply Hr, Hin. }
    rewrite key_eqb_sym in Hdz.
    simpl. rewrite (key_eqb_trans k z d Hk Hdz). simpl.
    specialize (IH Hr). simpl in IH. lia.
Qed.

Lemma null_key c : key_eqb [key_cell c] [CNaN] = is_null c.
Proof. destruct c; reflexivity. Qed.

Lemma null_key' c : key_cell_eqb (key_cell c) CNaN && true = is_null c.
Proof. destruct c; reflexivity. Qed.

Lemma key_eqb_congr_l a b z : key_eqb a b = true -> key_eqb a z = key_eqb b z.
Proof.
  intros Hab. apply Bool.eq_iff_eq_true. split; intros H.
  - rewrite key_eqb_sym in Hab. eapply key_eqb_trans; eassumption.
  - eapply key_eqb_trans; eassumption.
Qed.

Lemma existsb_map' {A B} (f : B -> bool) (g : A -> B) l :
  existsb f (map g l) = existsb (fun x => f (g x)) l.
Proof. induction l as [|x l IH]; simpl; [reflexivity|]. rewrite IH. reflexivity. Qed.

Lemma existsb_ext' {A} (f g : A -> bool) l : (forall x, f x = g x) -> existsb f l = existsb g l.
Proof. intros H. induction l as [|x l IH]; simpl; [reflexivity|]. rewrite H, IH. reflexivity. Qed.

Lemma filter_nonempty_existsb {A} (f : A -> bool) l :
  match List.filter f l with [] => 0 | _ => 1 end = if existsb f l then 1 else 0.
Proof.
  induction l as [|x l IH]; simpl; [reflexivity|]. destruct (f x); simpl; [reflexivity | exact IH].
Qed.

(** X8.  For an existing column other than "row_count", [unique_count]
    (which drops nulls) plus one when the column holds a null is the number
    of groups of [group_count] on that column (which keeps a null group). *)
Theorem unique_count_plus_null_group df col i dt :
  col_index col df = Some (i, dt) -> col <> "row_count" ->
  exists n g,
    unique_count df col
      = Ok (mkTable [("column", DObject); ("unique_count", DInt)] [(0, [CStr col; CInt (Z.of_nat n)])])
    /\ group_count df (PList [PStr col]) = Ok g
    /\ n + (if existsb (fun '(_, cs) => is_null (nth i cs CNone)) (trows df) then 1 else 0)
       = length (trows g).
Proof.
  intros Hc Hrc. unfold unique_count. rewrite Hc.
  unfold group_count. cbn [py_iter bind List.filter]. rewrite Hc.
  unfold group_cols. cbn [map all_ok]. rewrite Hc. cbn [bind].
  destruct (size_frame df [(col, (i, dt))]) as [g|e] eqn:Es.
  2:{ exfalso. unfold size_frame in Es. simpl in Es.
      destruct (String.eqb_spec col "row_count"); [contradiction | discriminate]. }
  do 2 eexists. split; [reflexivity|]. split; [reflexivity|].
  apply size_frame_length in Es. rewrite Es. cbn [map].
  set (P := fun x : list cell => negb (key_eqb x [CNaN])).
  assert (HP : forall a b, key_eqb a b = true -> P a = P b)
    by (intros a b Hab; unfold P; rewrite (key_eqb_congr_l a b _ Hab); reflexivity).
  rewrite (length_dedup_partition P _ HP (wf_row_keys _ _)).
  f_equal.
  - f_equal. f_equal. clear Es HP. unfold P. induction (trows df) as [|[l cs] rows IH]; [reflexivity|].
    simpl. rewrite (null_key' (nth i cs CNone)).
    destruct (is_null (nth i cs CNone)) eqn:E; simpl; [exact IH|].
    unfold key_cell at 1. rewrite E. f_equal. exact IH.
  - rewrite (length_dedup_all_related _ [CNaN]).
    + rewrite filter_nonempty_existsb, existsb_map'. f_equal. f_equal.
      symmetry. rewrite (existsb_ext' _ (fun '(_, cs) => is_null (nth i cs CNone))); [reflexivity|]. intros [l cs]. unfold P, row_key. simpl map.
      rewrite negb_involutive. apply null_key.
    + apply List.Forall_forall. intros x Hx. apply List.filter_In in Hx as [_ Hx].
      unfold P in Hx. rewrite negb_involutive in Hx. exact Hx.
Qed.

(** X9.  For [n <> 0], the rows of [meta_head df n] followed by the rows of
    [meta_tail df (-n)] are exactly the rows of [df]. *)
Theorem meta_head_tail_split df n :
  n <> 0%Z -> trows (meta_head df n) ++ trows (meta_tail df (- n)) = trows df.
Proof.
  intros Hn. unfold meta_head, meta_tail, df_head, df_tail. cbn [trows].
  destruct (Z.leb_spec 0 n).
  - replace (Z.eqb (- n) 0) with false by lia. replace (Z.ltb 0 (- n)) with false by lia.
    rewrite Z.opp_involutive. apply firstn_skipn.
  - replace (Z.eqb (- n) 0) with false by lia. replace (Z.ltb 0 (- n)) with true by lia.
    apply firstn_skipn.
Qed.




Lemma df_head_rows d d' n :
  tcols d' = tcols d -> Permutation (trows d') (trows d) ->
  tcols (df_head d' n) = tcols d
  /\ trows (df_head d' n) ⊆+ trows d
  /\ length (trows (df_head d' n))
     = (if Z.leb 0 n then Nat.min (Z.to_nat n) (length (trows d))
        else length (trows d) - Z.to_nat (- n)).
Proof.
  intros Hc Hp. unfold df_head. cbn [tcols trows]. split; [exact Hc|].
  rewrite <- (Permutation_length Hp).
  destruct (Z.leb 0 n); (split; [etrans; [apply submseteq_take | apply Permutation_submseteq, Hp]|]);
    rewrite length_firstn; lia.
Qed.

(** X11.  For any [sort_values] that permutes the rows, [sort_top] succeeds
    only when [apply_filters] does, keeps the input columns, returns rows
    taken from the filtered frame, and returns [min top_n len] of them
    (all but the last [-top_n] when [top_n] is negative). *)
Theorem sort_top_rows fr rs sort_values
    (Hsort : forall b a d d', sort_values b a d = Ok d' ->
                              tcols d' = tcols d /\ Permutation (trows d') (trows d))
    df by_ n asc filters t :
  sort_top fr rs sort_values df by_ n asc filters = Ok t ->
  exists data, apply_filters fr rs df filters = Ok data
    /\ tcols t = tcols df
    /\ trows t ⊆+ trows data
    /\ length (trows t) = (if Z.leb 0 n then Nat.min (Z.to_nat n) (length (trows data))
                           else length (trows data) - Z.to_nat (- n)).
Proof.
  unfold sort_top. destruct (apply_filters fr rs df filters) as [data|e] eqn:Ea; cbn [bind];
    [|discriminate].
  intros H. exists data. split; [reflexivity|].
  destruct (apply_filters_narrows fr rs df filters data Ea) as [Hcols _].
  destruct (List.filter _ by_) as [|c cs].
  - injection H as <-. destruct (df_head_rows data data n eq_refl (Permutation_refl _))
      as [H1 [H2 H3]]. rewrite H1. auto.
  - destruct (sort_values _ asc data) as [s|e] eqn:Es; cbn [bind]; [|discriminate].
    injection H as <-. destruct (Hsort _ _ _ _ Es) as [Hc Hp].
    destruct (df_head_rows data s n Hc Hp) as [H1 [H2 H3]]. rewrite H1. auto.
Qed.





Lemma pstrs_str_list l : pstrs (Planner.str_list l) = l.
Proof. unfold Planner.str_list; induction l as [|a l IH]; simpl; [reflexivity|]. simpl in IH. rewrite IH. reflexivity. Qed.

Lemma first_some_id_in {A} (l : list (option A)) p :
  Re.first_some (fun r => r) l = Some p -> In (Some p) l.
Proof.
  induction l as [|o l IH]; simpl; [discriminate|].
  destruct o as [a|]; [intros [= ->]; left; reflexivity | intros H; right; auto].
Qed.

Lemma set_keys k v d : forall c, In c (map fst (Dict.set k v d)) -> c = k \/ In c (map fst d).
Proof.
  induction d as [|[k' v'] d IH]; simpl; intros c.
  - intuition.
  - destruct (String.eqb k k') eqn:E; simpl.
    + apply String.eqb_eq in E; subst. intuition.
    + intros [->|H]; [auto|]. destruct (IH c H); auto.
Qed.

Lemma str_mem_in c cols : Planner.str_mem c cols = true -> In c cols.
Proof.
  unfold Planner.str_mem. intros H. apply existsb_exists in H as [x [Hx E]].
  apply String.eqb_eq in E; subst; exact Hx.
Qed.

Section PlanCols.
Variable gcm : string -> list string -> nat -> Q -> list string.
Hypothesis Hgcm : forall w ps n c x, In x (gcm w ps n c) -> In x ps.
Variable cols : list string.

Lemma hd_opt_gcm w n c x : Planner.hd_opt (gcm w cols n c) = Some x -> In x cols.
Proof.
  destruct (gcm w cols n c) as [|y l] eqn:E; simpl; [discriminate|].
  intros [= <-]. apply (Hgcm w cols n c). rewrite E. left; reflexivity.
Qed.

Lemma resolve_col_in q c : Planner.resolve_col_from_text gcm q cols = Some c -> In c cols.
Proof.
  unfold Planner.resolve_col_from_text.
  destruct (find _ cols) eqn:E.
  - intros [= <-]. apply find_some in E. tauto.
  - apply hd_opt_gcm.
Qed.

Lemma first_present_in cands c : Planner.first_present gcm cols cands = Some c -> In c cols.
Proof.
  unfold Planner.first_present.
  destruct (find _ cands) eqn:E.
  - intros [= <-]. apply find_some in E as [_ E]. apply str_mem_in; exact E.
  - destruct cands; [discriminate|]. apply hd_opt_gcm.
Qed.

Lemma or_str_in a b c :
  (forall x, a = Some x -> In x cols) -> (forall x, b = Some x -> In x cols) ->
  Planner.or_str a b = Some c -> In c cols.
Proof. unfold Planner.or_str. destruct (Planner.truthy a); auto. Qed.

Lemma resolve_after_in q c : Planner.resolve_col_after_by_or_per gcm q cols = Some c -> In c cols.
Proof.
  unfold Planner.resolve_col_after_by_or_per.
  destruct (match Re.search Re.p_by_per_end q with Some cp => Some cp | None => Re.search Re.p_by q end);
    [apply resolve_col_in | discriminate].
Qed.

Lemma extract_filters_keys q : Forall (fun c => In c cols) (map fst (Planner.extract_filters gcm q cols)).
Proof.
  apply List.Forall_forall. intros c.
  unfold Planner.extract_filters. cbv zeta.
  destruct (Re.search Re.p_where_contains q) as [cp2|];
  destruct (Re.search Re.p_where_eq q) as [cp1|];
  try destruct (Planner.resolve_col_from_text gcm (Re.group q cp1 1) cols) as [c1|] eqn:E1;
  try destruct (Planner.resolve_col_from_text gcm (Re.group q cp2 1) cols) as [c2|] eqn:E2;
  repeat match goal with |- context [if ?b then _ else _] => destruct b end;
  intros H;
  repeat (apply set_keys in H as [->|H]; [eapply resolve_col_in; eassumption|]);
  simpl in H; tauto.
Qed.

Lemma fold_year_keys y f :
  Forall (fun c => In c cols) (map fst f) -> Forall (fun c => In c cols) (map fst (Planner.fold_year y cols f)).
Proof.
  intros Hf. unfold Planner.fold_year.
  destruct y as [y|]; [|exact Hf].
  destruct (negb (Z.eqb y 0) && Planner.str_mem "year" cols) eqn:E; [|exact Hf].
  apply andb_true_iff in E as [_ E]. apply str_mem_in in E.
  apply List.Forall_forall. intros c Hc. apply set_keys in Hc as [->|Hc]; [exact E|].
  rewrite List.Forall_forall in Hf; auto.
Qed.

Lemma group_list_in q y gb :
  (forall x, gb = Some x -> In x cols) -> Forall (fun c => In c cols) (Planner.group_list q cols y gb).
Proof.
  intros Hgb. unfold Planner.group_list.
  assert (Hy : Forall (fun c => In c cols)
     (if Planner.str_mem "year" cols && (PyStr.py_in "by year" q || Planner.year_truthy y) then ["year"] else [])).
  { destruct (Planner.str_mem "year" cols) eqn:E; simpl; [|constructor].
    destruct (_ || _); repeat constructor. apply str_mem_in, E. }
  destruct gb as [g|]; [|exact Hy].
  destruct (Planner.truthy (Some g)); [|exact Hy]. repeat constructor. auto.
Qed.

Lemma ops_of_in t op :
  (forall x, t = Some x -> In x cols) ->
  Forall (fun c => In c cols) (List.filter (fun c => negb (String.eqb c "*")) (map fst (Planner.ops_of t op))).
Proof.
  intros Ht. unfold Planner.ops_of. destruct t as [x|]; [|constructor].
  destruct (Planner.truthy (Some x)); simpl; [|constructor].
  destruct (negb _); repeat constructor. auto.
Qed.

Lemma plan_columns_aggregate gb ops f :
  plan_columns (Planner.plan_aggregate gb ops f) =
  gb ++ List.filter (fun c => negb (String.eqb c "*")) (map fst ops) ++ map fst f.
Proof.
  unfold Planner.plan_aggregate, plan_columns.
  cbn [flat_map]. rewrite !app_nil_r.
  simpl (String.eqb _ _). cbn [orb pkeys pstrs app]. rewrite pstrs_str_list. reflexivity.
Qed.

Lemma aggregate_ok gb ops f :
  Forall (fun c => In c cols) gb ->
  Forall (fun c => In c cols) (List.filter (fun c => negb (String.eqb c "*")) (map fst ops)) ->
  Forall (fun c => In c cols) (map fst f) ->
  Forall (fun c => In c cols) (plan_columns (Planner.plan_aggregate gb ops f)).
Proof. intros. rewrite plan_columns_aggregate. apply Forall_app; split; [|apply Forall_app]; auto. Qed.

Ltac rule_tac :=
  unfold cols_ok; intros ?p;
  repeat match goal with |- context [if ?b then _ else _] => destruct b end;
  intros ?E; try discriminate; injection E as <-.

Lemma meta_rules_ok q n :
  Forall (cols_ok cols)
   [Planner.rule_shape q; Planner.rule_columns q; Planner.rule_dtypes q; Planner.rule_describe q;
    Planner.rule_head q n; Planner.rule_tail q n; Planner.rule_missing q; Planner.rule_duplicates q].
Proof.
  repeat apply List.Forall_cons; try apply List.Forall_nil.
  all: unfold Planner.rule_shape, Planner.rule_columns, Planner.rule_dtypes, Planner.rule_describe,
    Planner.rule_head, Planner.rule_tail, Planner.rule_missing, Planner.rule_duplicates, Planner.only_type.
  all: rule_tac; simpl; constructor.
Qed.

Lemma rules_ok q n y f :
  Forall (fun c => In c cols) (map fst f) ->
  Forall (cols_ok cols)
   [Planner.rule_shape q; Planner.rule_columns q; Planner.rule_dtypes q; Planner.rule_describe q;
    Planner.rule_head q n; Planner.rule_tail q n; Planner.rule_missing q; Planner.rule_duplicates q;
    Planner.rule_unique gcm q cols; Planner.rule_value_counts gcm q cols n;
    Planner.rule_count gcm q cols y f; Planner.rule_top gcm q cols f;
    Planner.rule_sum gcm q cols y f; Planner.rule_avg gcm q cols y f;
    Planner.rule_corr q cols; Planner.rule_outlier gcm q cols; Planner.rule_trend gcm q cols].
Proof.
  intros Hf.
  change (Forall (cols_ok cols) ([Planner.rule_shape q; Planner.rule_columns q; Planner.rule_dtypes q; Planner.rule_describe q;
    Planner.rule_head q n; Planner.rule_tail q n; Planner.rule_missing q; Planner.rule_duplicates q] ++
    [Planner.rule_unique gcm q cols; Planner.rule_value_counts gcm q cols n;
    Planner.rule_count gcm q cols y f; Planner.rule_top gcm q cols f;
    Planner.rule_sum gcm q cols y f; Planner.rule_avg gcm q cols y f;
    Planner.rule_corr q cols; Planner.rule_outlier gcm q cols; Planner.rule_trend gcm q cols])).
  apply Forall_app; split; [apply meta_rules_ok|].
  repeat apply List.Forall_cons; try apply List.Forall_nil.
  - (* unique *)
    unfold cols_ok, Planner.rule_unique. intros p.
    destruct (_ || _); [|discriminate].
    destruct (Planner.resolve_col_from_text gcm q cols) as [c|] eqn:Ec; [|discriminate].
    destruct (Planner.truthy (Some c)); [|discriminate]. intros [= <-]. simpl.
    repeat constructor. eapply resolve_col_in; exact Ec.
  - (* value counts *)
    unfold cols_ok, Planner.rule_value_counts. intros p.
    destruct (Planner.any_in _ q); [|discriminate].
    destruct (Planner.resolve_col_from_text gcm q cols) as [c|] eqn:Ec; [|discriminate].
    destruct (Planner.truthy (Some c)); [|discriminate]. intros [= <-]. simpl.
    repeat constructor. eapply resolve_col_in; exact Ec.
  - (* count *)
    unfold cols_ok, Planner.rule_count. intros p.
    destruct (Planner.any_in _ q); [|discriminate].
    assert (Hagg : Forall (fun c => In c cols) (plan_columns
       (Planner.plan_aggregate [] [("*", PStr "count")] (Planner.fold_year y cols f)))).
    { apply aggregate_ok; [constructor | simpl; constructor | apply fold_year_keys, Hf]. }
    destruct (Planner.resolve_col_after_by_or_per gcm q cols) as [g|] eqn:Eg; [|intros [= <-]; exact Hagg].
    destruct (Planner.truthy (Some g)); intros [= <-]; [|exact Hagg].
    simpl. repeat constructor. eapply resolve_after_in; exact Eg.
  - (* top *)
    unfold cols_ok, Planner.rule_top. intros p.
    destruct (Re.search Re.p_top q) as [cp|]; [|discriminate]. cbv zeta.
    destruct (Planner.resolve_col_from_text gcm _ cols) as [b|] eqn:Eb; [|discriminate].
    destruct (Planner.truthy (Some b)); [|discriminate]. intros [= <-].
    simpl. rewrite app_nil_r. constructor; [eapply resolve_col_in; exact Eb | exact Hf].
  - (* sum *)
    unfold cols_ok, Planner.rule_sum. intros p.
    destruct (Planner.any_in _ q); [|discriminate]. intros [= <-].
    apply aggregate_ok.
    + apply group_list_in. apply resolve_after_in.
    + apply ops_of_in. apply first_present_in.
    + apply fold_year_keys, Hf.
  - (* avg *)
    unfold cols_ok, Planner.rule_avg. intros p.
    destruct (Planner.any_in _ q); [|discriminate]. intros [= <-].
    apply aggregate_ok.
    + apply group_list_in. apply resolve_after_in.
    + apply ops_of_in. intros x. apply or_str_in; [apply resolve_col_in | apply first_present_in].
    + apply fold_year_keys, Hf.
  - (* corr *)
    unfold cols_ok, Planner.rule_corr. intros p.
    destruct (_ || _); [|discriminate].
    match goal with |- context [Planner.str_list ?L0] => remember L0 as L eqn:EL end.
    intros [= <-].
    unfold plan_columns. cbn [flat_map]. rewrite !app_nil_r.
    simpl (String.eqb _ _). cbn [orb pkeys pstrs app]. rewrite pstrs_str_list.
    apply List.Forall_forall. intros c Hc. subst L. apply List.filter_In in Hc as [_ Hc].
    apply str_mem_in, Hc.
  - (* outlier *)
    unfold cols_ok, Planner.rule_outlier. intros p.
    destruct (_ || _); [|discriminate]. intros [= <-].
    assert (Hd : Forall (fun c => In c cols)
      (pstrs (match cols with c0 :: _ => PStr c0 | [] => PNone end))).
    { destruct cols as [|c0 r]; simpl; repeat constructor. }
    simpl. rewrite app_nil_r.
    destruct (Planner.or_str _ _) as [c|] eqn:Ec; [|exact Hd].
    destruct (Planner.truthy (Some c)); [|exact Hd].
    simpl. repeat constructor.
    revert Ec. apply or_str_in; [apply resolve_col_in | apply first_present_in].
  - (* trend *)
    unfold cols_ok, Planner.rule_trend. intros p.
    destruct (_ || _); [|discriminate]. intros [= <-].
    apply aggregate_ok; [| apply ops_of_in | constructor].
    + destruct (Planner.str_mem "year" cols) eqn:E; repeat constructor. apply str_mem_in, E.
    + intros x. apply or_str_in; [apply resolve_col_in | apply first_present_in].
Qed.

End PlanCols.

(** X13.  Provided [difflib.get_close_matches] returns members of its
    possibilities, every column name the planner puts in a plan (group-by
    names, sort keys, correlation columns, the target column, the keys of
    ops other than "*", the filter keys) is one of [available_cols]. *)
Theorem plan_from_nl_columns_available
    (gcm : string -> list string -> nat -> Q -> list string)
    (Hgcm : forall w ps n c x, In x (gcm w ps n c) -> In x ps) cols q :
  Forall (fun c => In c cols) (plan_columns (Planner.plan_from_nl gcm q cols)).
Proof.
  unfold Planner.plan_from_nl. cbv zeta.
  destruct (Re.first_some _ _) as [p|] eqn:E.
  - apply first_some_id_in in E.
    pose proof (rules_ok gcm Hgcm cols (PyStr.lower (PyStr.strip q)) (Planner.extract_int (PyStr.lower (PyStr.strip q)))
      (Planner.extract_year (PyStr.lower (PyStr.strip q)))
      (Planner.extract_filters gcm (PyStr.lower (PyStr.strip q)) cols)
      (extract_filters_keys gcm Hgcm cols _)) as H.
    rewrite List.Forall_forall in H. exact (H _ E p eq_refl).
  - unfold Planner.default_plan. rewrite plan_columns_aggregate. simpl. constructor.
Qed.

Lemma first_some_inv {A B} (f : A -> option B) l b :
  Re.first_some f l = Some b -> exists a, In a l /\ f a = Some b.
Proof.
  induction l as [|a l IH]; simpl; [discriminate|].
  destruct (f a) eqn:E.
  - intros [= <-]. exists a; auto.
  - intros H. destruct (IH H) as [x [Hx Hf]]. exists x; auto.
Qed.

Lemma search_inv its str cp :
  Re.search its str = Some cp ->
  exists i e, Re.mtch its (list_ascii_of_string str) i [] [] = Some (e, cp).
Proof.
  unfold Re.search. intros H. apply first_some_inv in H as [i [_ H]].
  destruct (Re.mtch its _ i [] []) as [[e cp']|] eqn:E; [|discriminate].
  injection H as <-. eauto.
Qed.

Lemma counts_in n lo k : In k (Re.counts n lo) -> lo <= k <= n.
Proof.
  unfold Re.counts. destruct (Nat.ltb n lo) eqn:E; [simpl; tauto|].
  apply Nat.ltb_ge in E. rewrite <- in_rev, in_seq. lia.
Qed.

Lemma run_le p l m : Re.run p l (Some m) <= m.
Proof.
  revert m; induction l as [|c l IH]; intros [|m]; simpl; try lia.
  destruct (p c); [specialize (IH m); lia | lia].
Qed.

Lemma run_prefix p l hi k :
  k <= Re.run p l hi -> length (firstn k l) = k /\ Forall (fun c => p c = true) (firstn k l).
Proof.
  revert hi k; induction l as [|c l IH]; intros hi k Hk.
  - destruct hi as [[|]|]; simpl in Hk; replace k with 0 by lia; simpl; auto.
  - destruct k as [|k]; [simpl; auto|].
    assert (Hk' : exists hi', k <= Re.run p l hi' /\ p c = true).
    { destruct hi as [m|]; [destruct m as [|m]|]; simpl in Hk; try lia;
        destruct (p c); try lia; eexists; split; try (apply le_S_n; exact Hk); reflexivity. }
    destruct Hk' as [hi' [Hk' Hp]].
    destruct (IH hi' k Hk') as [H1 H2].
    simpl. split; [congruence | constructor; assumption].
Qed.

Lemma substring_list n m s :
  list_ascii_of_string (substring n m s) = firstn m (skipn n (list_ascii_of_string s)).
Proof.
  revert n m; induction s as [|c s IH]; intros [|n] [|m]; simpl; rewrite ?IH; auto.
Qed.

Lemma nth_error_skipn {A} (l : list A) i d :
  nth_error l i = Some d -> skipn i l = d :: skipn (S i) l.
Proof.
  revert i; induction l as [|a l IH]; intros [|i]; simpl; try discriminate.
  - intros [= ->]. reflexivity.
  - apply IH.
Qed.

Lemma digit_not_space c : PyStr.is_digit c = true -> PyStr.is_space c = false.
Proof.
  unfold PyStr.is_digit, PyStr.is_space. intros H.
  apply andb_true_iff in H as [H1 H2]. apply Nat.leb_le in H1, H2.
  apply orb_false_iff; split; apply andb_false_iff; right; apply Nat.leb_gt; lia.
Qed.

Lemma drop_space_digits l : match l with c :: _ => PyStr.is_digit c = true | [] => True end ->
  PyStr.drop_space l = l.
Proof. destruct l as [|c l]; simpl; [reflexivity|]. intros H. rewrite digit_not_space; auto. Qed.

Lemma digitpart_digits l acc nd :
  Forall (fun c => PyStr.is_digit c = true) l ->
  exists v, PyNum.digitpart l acc nd = (v, nd + length l, []) /\
    (acc * 10 ^ Z.of_nat (length l) <= v < (acc + 1) * 10 ^ Z.of_nat (length l))%Z.
Proof.
  revert acc nd; induction l as [|c l IH]; intros acc nd Hl.
  - exists acc. simpl. rewrite Nat.add_0_r. split; [reflexivity|lia].
  - inversion Hl as [|? ? Hc Hr]; subst.
    simpl. rewrite Hc.
    destruct (IH (acc * 10 + Z.of_nat (PyStr.code c - 48))%Z (S nd) Hr) as [v [Hv Hb]].
    exists v. rewrite Hv, Nat.add_succ_r. split; [reflexivity|].
    unfold PyStr.is_digit in Hc. apply andb_true_iff in Hc as [H1 H2].
    apply Nat.leb_le in H1, H2.
    assert (Hd : (0 <= Z.of_nat (PyStr.code c - 48) <= 9)%Z) by lia.
    rewrite Nat2Z.inj_succ, Z.pow_succ_r by lia.
    assert (0 < 10 ^ Z.of_nat (length l))%Z by (apply Z.pow_pos_nonneg; lia).
    nia.
Qed.

Lemma py_int_digits l :
  l <> [] -> Forall (fun c => PyStr.is_digit c = true) l ->
  exists v, PyNum.digitpart l 0 0 = (v, length l, []) /\ PyNum.py_int (string_of_list_ascii l) = Some v.
Proof.
  intros Hne Hl.
  destruct (digitpart_digits l 0 0 Hl) as [v [Hv _]].
  simpl in Hv. exists v. split; [exact Hv|].
  assert (Hhd : match l with c :: _ => PyStr.is_digit c = true | [] => True end)
    by (destruct l; [exact I | inversion Hl; assumption]).
  assert (Hrev : match rev l with c :: _ => PyStr.is_digit c = true | [] => True end).
  { destruct (rev l) as [|c r] eqn:E; [exact I|].
    assert (In c l) by (apply in_rev; rewrite E; left; reflexivity).
    rewrite List.Forall_forall in Hl; auto. }
  unfold PyNum.py_int, PyStr.strip.
  rewrite !list_ascii_of_string_of_list_ascii, (drop_space_digits l Hhd).
  rewrite (drop_space_digits (rev l) Hrev), rev_involutive.
  destruct l as [|c r]; [congruence|].
  assert (Hs : PyNum.sign (c :: r) = (false, c :: r)).
  { simpl. simpl in Hhd.
    destruct (Ascii.eqb c "-") eqn:E1; [apply Ascii.eqb_eq in E1; subst; discriminate|].
    destruct (Ascii.eqb c "+") eqn:E2; [apply Ascii.eqb_eq in E2; subst; discriminate|].
    reflexivity. }
  rewrite Hs. simpl in Hv |- *. rewrite Hv. reflexivity.
Qed.

Lemma group_one str i j : Re.group str [(1, (i, j))] 1 = substring i (j - i) str.
Proof. reflexivity. Qed.

Lemma string_of_list_group str i k :
  substring i k str = string_of_list_ascii (firstn k (skipn i (list_ascii_of_string str))).
Proof. rewrite <- substring_list, string_of_list_ascii_of_string. reflexivity. Qed.

(** X14.  [_extract_int] returns only integers between 0 and 9999. *)
Theorem extract_int_range text n :
  Planner.extract_int text = Some n -> (0 <= n <= 9999)%Z.
Proof.
  unfold Planner.extract_int.
  destruct (Re.search Re.p_int text) as [cp|] eqn:Es; [|discriminate].
  apply search_inv in Es as [i [e Hm]].
  set (s := list_ascii_of_string text) in Hm.
  unfold Re.p_int in Hm. simpl Re.mtch in Hm.
  destruct (Re.boundary s i); [|discriminate].
  apply first_some_inv in Hm as [k [Hk Hm]].
  simpl in Hm. destruct (Re.boundary s (i + k)); [|discriminate].
  injection Hm as <- <-.
  apply counts_in in Hk.
  pose proof (run_le PyStr.is_digit (skipn i s) 4).
  destruct (run_prefix PyStr.is_digit (skipn i s) (Some 4) k) as [Hlen Hd]; [lia|].
  rewrite group_one, string_of_list_group. replace (i + k - i) with k by lia. fold s.
  destruct (digitpart_digits (firstn k (skipn i s)) 0 0 Hd) as [v [Hv Hb]].
  destruct (py_int_digits (firstn k (skipn i s))) as [v' [Hv' ->]];
    [intros E; rewrite E in Hlen; simpl in Hlen; lia | exact Hd|].
  intros [= <-]. rewrite Hv in Hv'. injection Hv' as <-.
  rewrite Hlen in Hb.
  assert (10 ^ Z.of_nat k <= 10 ^ 4)%Z by (apply Z.pow_le_mono_r; lia).
  lia.
Qed.

(** X15.  [_extract_year] returns only years between 2000 and 2099. *)
Theorem extract_year_range text y :
  Planner.extract_year text = Some y -> (2000 <= y <= 2099)%Z.
Proof.
  unfold Planner.extract_year.
  destruct (Re.search Re.p_year text) as [cp|] eqn:Es; [|discriminate].
  apply search_inv in Es as [i [e Hm]].
  set (s := list_ascii_of_string text) in Hm.
  unfold Re.p_year in Hm. cbn [Re.mtch] in Hm.
  destruct (Re.boundary s i); [|discriminate].
  destruct (nth_error s i) as [d0|] eqn:E0; [|discriminate].
  destruct (Ascii.eqb "2" d0) eqn:Ed0; [|discriminate]. apply Ascii.eqb_eq in Ed0; subst d0.
  destruct (nth_error s (S i)) as [d1|] eqn:E1; [|discriminate].
  destruct (Ascii.eqb "0" d1) eqn:Ed1; [|discriminate]. apply Ascii.eqb_eq in Ed1; subst d1.
  apply first_some_inv in Hm as [k [Hk Hm]].
  cbn [Re.mtch find Nat.eqb] in Hm. destruct (Re.boundary s (S (S i) + k)); [|discriminate].
  injection Hm as <- <-.
  apply counts_in in Hk.
  pose proof (run_le PyStr.is_digit (skipn (S (S i)) s) 2).
  destruct (run_prefix PyStr.is_digit (skipn (S (S i)) s) (Some 2) k) as [Hlen Hd]; [lia|].
  rewrite group_one, string_of_list_group. fold s.
  replace (S (S (i + k)) - i) with (S (S k)) by lia.
  rewrite (nth_error_skipn s i _ E0), (nth_error_skipn s (S i) _ E1).
  cbn [firstn].
  set (L := firstn k (skipn (S (S i)) s)) in *.
  assert (HL : Forall (fun c => PyStr.is_digit c = true) ("2" :: "0" :: L)%char)
    by (repeat constructor; assumption).
  destruct (py_int_digits ("2" :: "0" :: L)%char) as [v [Hv ->]]; [discriminate | exact HL |].
  destruct (digitpart_digits L 20 2 Hd) as [v' [Hv' Hb]].
  change (PyNum.digitpart ("2" :: "0" :: L)%char 0 0) with (PyNum.digitpart L 20 2) in Hv.
  rewrite Hv' in Hv. assert (v = v') by congruence. subst v.
  intros [= <-]. replace (length L) with 2 in Hb by lia. simpl in Hb. lia.
Qed.

(** ** Runs of the statements above on concrete inputs *)

Lemma apply_filters_rows_sublist_witness :
  apply_filters fr0 rs0 region_tbl2 (PDict contains_tx) = Ok tx_tbl
  /\ tcols tx_tbl = tcols region_tbl2 /\ trows tx_tbl `sublist_of` trows region_tbl2.
Proof.
  split; [vm_compute; reflexivity|].
  apply (apply_filters_rows_sublist fr0 rs0 region_tbl2 (PDict contains_tx)).
  vm_compute. reflexivity.
Defined.

Lemma apply_filters_equality_filter_witness :
  col_index "region" null_tbl = Some (0%nat, DObject)
  /\ apply_filters fr0 rs0 null_tbl (PDict [("region", PStr "TX")])
     = Ok (mkTable (tcols null_tbl) [(0, [CStr "TX"; CFlt 1]); (2, [CStr "TX"; CFlt 2])]).
Proof.
  split; [reflexivity|].
  destruct (apply_filters_equality_filter fr0 rs0 null_tbl "region" (PStr "TX") 0 DObject)
    as [-> _].
  - reflexivity.
  - intros l; discriminate.
  - intros d; discriminate.
  - vm_compute. reflexivity.
Defined.

Lemma apply_filters_h_new_object_witness :
  Heap.apply_filters_h fr0 rs0 heap0 0 (PDict contains_tx)
    = Ok (<[2 := tx_tbl]> (<[1 := region_tbl2]> heap0), 2%nat)
  /\ heap0 !! 2%nat = None.
Proof.
  assert (E : Heap.apply_filters_h fr0 rs0 heap0 0 (PDict contains_tx)
              = Ok (<[2 := tx_tbl]> (<[1 := region_tbl2]> heap0), 2%nat))
    by (vm_compute; reflexivity).
  split; [exact E|].
  exact (proj1 (apply_filters_h_new_object fr0 rs0 heap0 0 (PDict contains_tx) _ _ E)).
Defined.

Lemma group_count_counts_sum_witness :
  group_count null_tbl (PList [PStr "region"])
    = Ok (mkTable [("region", DObject); ("row_count", DInt)]
                  [(0, [CStr "TX"; CInt 2]); (1, [CNaN; CInt 1])])
  /\ fold_right Z.add 0%Z (row_counts (mkTable [("region", DObject); ("row_count", DInt)]
                  [(0, [CStr "TX"; CInt 2]); (1, [CNaN; CInt 1])])) = 3%Z.
Proof.
  assert (E : group_count null_tbl (PList [PStr "region"])
    = Ok (mkTable [("region", DObject); ("row_count", DInt)]
                  [(0, [CStr "TX"; CInt 2]); (1, [CNaN; CInt 1])])) by (vm_compute; reflexivity).
  split; [exact E|].
  exact (group_count_counts_sum null_tbl (PList [PStr "region"]) _ E).
Defined.

Lemma group_count_one_row_per_group_witness :
  group_count dup_tbl (PList [PStr "region"; PStr "val"])
    = Ok (mkTable [("region", DObject); ("val", DInt); ("row_count", DInt)]
                  [(0, [CStr "TX"; CInt 1; CInt 2]); (1, [CNaN; CInt 2; CInt 1])])
  /\ Forall (fun z => (1 <= z)%Z)
       (row_counts (mkTable [("region", DObject); ("val", DInt); ("row_count", DInt)]
                  [(0, [CStr "TX"; CInt 1; CInt 2]); (1, [CNaN; CInt 2; CInt 1])])).
Proof.
  assert (E : group_count dup_tbl (PList [PStr "region"; PStr "val"])
    = Ok (mkTable [("region", DObject); ("val", DInt); ("row_count", DInt)]
                  [(0, [CStr "TX"; CInt 1; CInt 2]); (1, [CNaN; CInt 2; CInt 1])]))
    by (vm_compute; reflexivity).
  split; [exact E|].
  destruct (group_count_one_row_per_group dup_tbl _ _ E) as [H | [_ H]];
    [discriminate H | exact H].
Defined.

Lemma duplicates_count_plus_groups_witness :
  duplicates_count dup_tbl = mkTable [("duplicate_rows", DInt)] [(0, [CInt 1])]
  /\ exists d, duplicates_count dup_tbl
                 = mkTable [("duplicate_rows", DInt)] [(0, [CInt (Z.of_nat d)])]
               /\ d + 2 = length (trows dup_tbl).
Proof.
  split; [vm_compute; reflexivity|].
  refine (duplicates_count_plus_groups dup_tbl
    (mkTable [("region", DObject); ("val", DInt); ("row_count", DInt)]
             [(0, [CStr "TX"; CInt 1; CInt 2]); (1, [CNaN; CInt 2; CInt 1])]) _ _ _).
  - discriminate.
  - vm_compute. constructor; [rewrite list_elem_of_In; simpl; intuition discriminate |
      constructor; [rewrite list_elem_of_In; simpl; tauto | constructor]].
  - vm_compute. reflexivity.
Defined.

Lemma unique_count_plus_null_group_witness :
  unique_count null_tbl "region"
    = Ok (mkTable [("column", DObject); ("unique_count", DInt)] [(0, [CStr "region"; CInt 1])])
  /\ exists n g, unique_count null_tbl "region"
      = Ok (mkTable [("column", DObject); ("unique_count", DInt)] [(0, [CStr "region"; CInt (Z.of_nat n)])])
    /\ group_count null_tbl (PList [PStr "region"]) = Ok g
    /\ n + 1 = length (trows g).
Proof.
  split; [vm_compute; reflexivity|].
  exact (unique_count_plus_null_group null_tbl "region" 0 DObject eq_refl ltac:(discriminate)).
Defined.

Lemma meta_head_tail_split_witness :
  trows (meta_head five_tbl 3) ++ trows (meta_tail five_tbl (-3)) = trows five_tbl.
Proof. apply (meta_head_tail_split five_tbl 3). discriminate. Defined.


Lemma sort_top_rows_witness :
  sort_top fr0 rs0 id_sort region_tbl2 ["region"] 1 false (PDict []) = Ok tx_tbl
  /\ exists data, apply_filters fr0 rs0 region_tbl2 (PDict []) = Ok data
    /\ tcols tx_tbl = tcols region_tbl2
    /\ trows tx_tbl ⊆+ trows data
    /\ length (trows tx_tbl) = Nat.min 1 (length (trows data)).
Proof.
  assert (E : sort_top fr0 rs0 id_sort region_tbl2 ["region"] 1 false (PDict []) = Ok tx_tbl)
    by (vm_compute; reflexivity).
  split; [exact E|].
  refine (sort_top_rows fr0 rs0 id_sort _ region_tbl2 ["region"] 1 false (PDict []) tx_tbl E).
  intros b a d d' H. injection H as <-. split; reflexivity.
Defined.


Lemma plan_from_nl_columns_available_witness :
  Planner.plan_from_nl Planner.no_close_matches
      "average volume by region where region = tx in 2024" ["volume"; "region"; "year"]
    = PDict [("type", PStr "aggregate"); ("group_by", PList [PStr "region"]);
             ("ops", PDict [("volume", PStr "mean")]);
             ("filters", PDict [("region", PStr "TX"); ("year", PInt 2024)])]
  /\ Forall (fun c => In c ["volume"; "region"; "year"])
       (plan_columns (Planner.plan_from_nl Planner.no_close_matches
          "average volume by region where region = tx in 2024" ["volume"; "region"; "year"])).
Proof.
  split; [vm_compute; reflexivity|].
  apply plan_from_nl_columns_available.
  intros w ps n c x H. destruct H.
Defined.

Lemma extract_int_range_witness :
  Planner.extract_int "top 25 rows" = Some 25%Z /\ (0 <= 25 <= 9999)%Z.
Proof.
  assert (E : Planner.extract_int "top 25 rows" = Some 25%Z) by (vm_compute; reflexivity).
  split; [exact E | exact (extract_int_range _ _ E)].
Defined.

Lemma extract_year_range_witness :
  Planner.extract_year "sum in 2024" = Some 2024%Z /\ (2000 <= 2024 <= 2099)%Z.
Proof.
  assert (E : Planner.extract_year "sum in 2024" = Some 2024%Z) by (vm_compute; reflexivity).
  split; [exact E | exact (extract_year_range _ _ E)].
Defined.
